(** * BridgeTool: the user-space adapter to the Linux bridge ioctl interface

    Shallow embedding of [libwifi_system_iface/bridge_tool.cpp].

    The six member functions of [BridgeTool] talk to the kernel through
    [socket], [ioctl], [if_nametoindex], [if_indextoname] and (through
    [base::unique_fd]) [close].  The kernel is not part of the program: it is
    a parameter of the development, an arbitrary deterministic transition
    function [kernel : K -> Syscall -> Reply * K] over an arbitrary state
    type [K].  Every call the program makes is appended to a trace, so that
    "the request is (not) issued" is a statement about that trace.

    Local arrays are modelled at byte granularity, because the program
    initialises them with [memset], whose length argument counts bytes. *)

From Stdlib Require Import ZArith List String Ascii Bool Lia.
Import ListNotations.
Local Open Scope Z_scope.

(** ** Constants of the translation unit and of the platform headers *)

Definition MAX_PORTS : Z := 1024.
Definition IFNAMSIZ : Z := 16.

(** [sizeof(int)] on every Android ABI. *)
Definition sizeof_int : Z := 4.

(** [errno] values of [<errno.h>] that the model names. *)
Definition EINTR : Z := 4.
Definition EBADF : Z := 9.
Definition EMFILE : Z := 24.

(** ** Bytes, C arrays and C strings *)

Module Mem.

(** [memset(p, c, n)]: the first [n] BYTES at [p] are set to [c]. *)
Fixpoint memset (buf : list Z) (c : Z) (n : nat) : list Z :=
  match n, buf with
  | S n', _ :: rest => (c mod 256) :: memset rest c n'
  | _, _ => buf
  end.

(** Two's complement reading of a 32-bit pattern, and back. *)
Definition to_int (u : Z) : Z :=
  let m := u mod 4294967296 in
  if m <? 2147483648 then m else m - 4294967296.

Definition to_unsigned (i : Z) : Z := i mod 4294967296.

(** [p[i]] for [int *p]: the four bytes at offset [4 * i], little endian.
    [None] when the access leaves the array. *)
Definition load_int (buf : list Z) (i : nat) : option Z :=
  match skipn (4 * i) buf with
  | b0 :: b1 :: b2 :: b3 :: _ =>
      Some (to_int (b0 + 256 * b1 + 65536 * b2 + 16777216 * b3))
  | _ => None
  end.

Definition int_bytes (v : Z) : list Z :=
  let u := to_unsigned v in
  [u mod 256; (u / 256) mod 256; (u / 65536) mod 256; (u / 16777216) mod 256].

(** Overwrite the beginning of [buf] with [src], never past its end. *)
Fixpoint overwrite (buf src : list Z) : list Z :=
  match buf, src with
  | _ :: b, s :: r => s :: overwrite b r
  | _, _ => buf
  end.

(** What the kernel's [copy_to_user(args[1], indices, n * sizeof(int))]
    leaves in the user array: the kernel was handed the capacity [cap] in
    [args[2]] and copies at most that many entries. *)
Definition copy_to_user (buf : list Z) (cap : Z) (indices : list Z) : list Z :=
  overwrite buf (flat_map int_bytes (firstn (Z.to_nat cap) indices)).

(** An uninitialised local array of [n] bytes: its contents are whatever
    the stack holds, given by [stack]. *)
Definition uninitialised (stack : nat -> Z) (n : Z) : list Z :=
  map (fun o => stack o mod 256) (seq 0 (Z.to_nat n)).

(** The values [p[0], ..., p[n-1]], when all of them are inside the array. *)
Fixpoint slots_from (buf : list Z) (i n : nat) : option (list Z) :=
  match n with
  | O => Some []
  | S n' =>
      match load_int buf i, slots_from buf (S i) n' with
      | Some v, Some vs => Some (v :: vs)
      | _, _ => None
      end
  end.

End Mem.

Module CStr.

(** [std::string::c_str()] seen as a C string: it ends at the first NUL. *)
Fixpoint c_str (s : string) : string :=
  match s with
  | EmptyString => EmptyString
  | String c r => if Ascii.eqb c zero then EmptyString else String c (c_str r)
  end.

Fixpoint take (n : nat) (s : string) : string :=
  match n, s with
  | S n', String c r => String c (take n' r)
  | _, _ => EmptyString
  end.

(** [strlcpy(dst, src, size)]: at most [size - 1] characters of the C
    string [src] are copied and a terminator is written; nothing is
    written when [size] is zero.  The result is the C string in [dst]. *)
Definition strlcpy (dst src : string) (size : Z) : string :=
  if size <=? 0 then dst else take (Z.to_nat (size - 1)) src.

End CStr.

(** ** The kernel interface *)

Inductive ioctl_req :=
| SIOCBRADDBR | SIOCBRDELBR | SIOCBRADDIF | SIOCBRDELIF | SIOCGIFBR | SIOCDEVPRIVATE.

Inductive brctl_op := BRCTL_GET_BRIDGES | BRCTL_GET_PORT_LIST.

(** The two members of [struct ifreq] that [addIfaceToBridge] and
    [removeIfaceFromBridge] fill in. *)
Record ifreq := { ifr_name : string; ifr_ifindex : Z }.

(** The third argument of [ioctl], by shape:
    a C string, an [ifreq] with an index, the [unsigned long args[3]] block
    [{op, &ifindices, capacity}], or an [ifreq] whose [ifr_data] points to
    such a block. *)
Inductive ioctl_arg :=
| ArgName (name : string)
| ArgIfreq (ifr : ifreq)
| ArgBrctl (op : brctl_op) (capacity : Z)
| ArgIfreqBrctl (name : string) (op : brctl_op) (capacity : Z).

Inductive Syscall :=
| Sys_socket
| Sys_close (fd : Z)
| Sys_ioctl (fd : Z) (req : ioctl_req) (arg : ioctl_arg)
| Sys_if_nametoindex (name : string)
| Sys_if_indextoname (ifindex : Z).

(** What a call gives back: its return value, the [errno] it leaves when it
    returns -1, the indices it copies into the caller's index array, and the
    name it writes into the caller's name buffer ([None]: the call returned
    [NULL]). *)
Record Reply := {
  ret : Z;
  err : Z;
  wr_indices : list Z;
  wr_name : option string
}.

Definition is_ioctl (c : Syscall) : bool :=
  match c with Sys_ioctl _ _ _ => true | _ => false end.

Definition count_ioctls (cs : list Syscall) : nat :=
  List.length (filter is_ioctl cs).

(** The calls that try to resolve the index [i] back to a name. *)
Definition is_resolution_of (i : Z) (c : Syscall) : bool :=
  match c with Sys_if_indextoname j => j =? i | _ => false end.

(** A line of the error log: its text and the [errno] it prints, if any. *)
Definition LogLine : Type := string * option Z.

(** ** The program's view of the world, and the six operations *)

Section BridgeTool.

(** The kernel: any state type, any deterministic reaction to a call. *)
Variable K : Type.
Variable kernel : K -> Syscall -> Reply * K.

Record World := {
  kstate : K;                (* the kernel's own state *)
  calls : list Syscall;      (* every call made so far, oldest first *)
  logs : list LogLine;       (* LOG(ERROR) output, oldest first *)
  errno : Z                  (* the thread's errno *)
}.

(** A run either returns, or spins in a retry loop longer than the fuel
    allows, or leaves the defined behaviour of C++ (an array read out of
    bounds). *)
Inductive Outcome (A : Type) :=
| Returns (a : A) (w : World)
| OutOfFuel
| Undefined.
Arguments Returns {A} a w.
Arguments OutOfFuel {A}.
Arguments Undefined {A}.

Definition M (A : Type) : Type := World -> Outcome A.

Definition pure {A} (a : A) : M A := fun w => Returns a w.

Definition bind {A B} (m : M A) (f : A -> M B) : M B :=
  fun w =>
    match m w with
    | Returns a w' => f a w'
    | OutOfFuel => OutOfFuel
    | Undefined => Undefined
    end.

Notation "x <- m ;; f" := (bind m (fun x => f))
  (at level 61, m at next level, right associativity).
Notation "m ;;; f" := (bind m (fun _ => f))
  (at level 61, right associativity).

Definition undefined_behaviour {A} : M A := fun _ => Undefined.

(** The reply the kernel gives to [c] in world [w], and the world after
    the call: the call is recorded, and [errno] is overwritten when the
    call returns -1, which is how [socket], [ioctl] and [close] report a
    failure.  The two name lookups report a failure by returning 0 or
    [NULL]; the [errno] they leave then is not modelled, and the program
    never reads it. *)
Definition reply (w : World) (c : Syscall) : Reply := fst (kernel (kstate w) c).

Definition after (w : World) (c : Syscall) : World :=
  let r := reply w c in
  {| kstate := snd (kernel (kstate w) c);
     calls := calls w ++ [c];
     logs := logs w;
     errno := if ret r =? -1 then err r else errno w |}.

Definition syscall (c : Syscall) : M Reply :=
  fun w => Returns (reply w c) (after w c).

Definition get_errno : M Z := fun w => Returns (errno w) w.

Definition set_errno (e : Z) : M unit :=
  fun w => Returns tt {| kstate := kstate w; calls := calls w;
                         logs := logs w; errno := e |}.

(** [LOG(ERROR) << text;] *)
Definition log_error (text : string) : M unit :=
  fun w => Returns tt {| kstate := kstate w; calls := calls w;
                         logs := logs w ++ [(text, None)]; errno := errno w |}.

(** [LOG(ERROR) << text << " (" << strerror(errno) << ")";] *)
Definition log_error_errno (text : string) : M unit :=
  fun w => Returns tt {| kstate := kstate w; calls := calls w;
                         logs := logs w ++ [(text, Some (errno w))];
                         errno := errno w |}.

(** The destructor of [base::unique_fd]: a descriptor other than -1 is
    closed, and [errno] is left as it was. *)
Definition unique_fd_release (fd : Z) : M unit :=
  if fd =? -1 then pure tt
  else e <- get_errno ;; syscall (Sys_close fd) ;;; set_errno e.

(** [TEMP_FAILURE_RETRY(exp)] of [<unistd.h>]:
    [do { rc = (exp); } while (rc == -1 && errno == EINTR);] *)
Fixpoint TEMP_FAILURE_RETRY (fuel : nat) (exp : M Reply) : M Z :=
  match fuel with
  | O => fun _ => OutOfFuel
  | S fuel' =>
      r <- exp ;;
      e <- get_errno ;;
      if (ret r =? -1) && (e =? EINTR)
      then TEMP_FAILURE_RETRY fuel' exp
      else pure (ret r)
  end.

(** [bool BridgeTool::createBridge(const std::string& br_name)] *)
Definition createBridge (fuel : nat) (br_name : string) : M bool :=
  s <- syscall Sys_socket ;;
  let sock := ret s in
  rc <- TEMP_FAILURE_RETRY fuel
          (syscall (Sys_ioctl sock SIOCBRADDBR (ArgName (CStr.c_str br_name)))) ;;
  if negb (rc =? 0) then
    log_error_errno ("Could not add bridge " ++ CStr.c_str br_name) ;;;
    unique_fd_release sock ;;;
    pure false
  else
    unique_fd_release sock ;;;
    pure true.

(** [bool BridgeTool::deleteBridge(const std::string& br_name)] *)
Definition deleteBridge (fuel : nat) (br_name : string) : M bool :=
  s <- syscall Sys_socket ;;
  let sock := ret s in
  rc <- TEMP_FAILURE_RETRY fuel
          (syscall (Sys_ioctl sock SIOCBRDELBR (ArgName (CStr.c_str br_name)))) ;;
  if negb (rc =? 0) then
    log_error_errno ("Could not remove bridge " ++ CStr.c_str br_name) ;;;
    unique_fd_release sock ;;;
    pure false
  else
    unique_fd_release sock ;;;
    pure true.

(** [memset(&ifr, 0, sizeof(ifr))] *)
Definition ifreq_zero : ifreq := {| ifr_name := EmptyString; ifr_ifindex := 0 |}.

(** [bool BridgeTool::addIfaceToBridge(br_name, if_name)] *)
Definition addIfaceToBridge (fuel : nat) (br_name if_name : string) : M bool :=
  let ifr := ifreq_zero in
  r <- syscall (Sys_if_nametoindex (CStr.c_str if_name)) ;;
  let ifr := {| ifr_name := ifr_name ifr; ifr_ifindex := Mem.to_int (ret r) |} in
  if ifr_ifindex ifr =? 0 then
    log_error ("Interface is not exist: " ++ CStr.c_str if_name) ;;;
    pure false
  else
    let ifr := {| ifr_name := CStr.strlcpy (ifr_name ifr) (CStr.c_str br_name) IFNAMSIZ;
                  ifr_ifindex := ifr_ifindex ifr |} in
    s <- syscall Sys_socket ;;
    let sock := ret s in
    rc <- TEMP_FAILURE_RETRY fuel (syscall (Sys_ioctl sock SIOCBRADDIF (ArgIfreq ifr))) ;;
    if negb (rc =? 0) then
      log_error_errno ("Could not add interface " ++ CStr.c_str if_name
                       ++ " into bridge " ++ ifr_name ifr) ;;;
      unique_fd_release sock ;;;
      pure false
    else
      unique_fd_release sock ;;;
      pure true.

(** [bool BridgeTool::removeIfaceFromBridge(br_name, if_name)] *)
Definition removeIfaceFromBridge (fuel : nat) (br_name if_name : string) : M bool :=
  let ifr := ifreq_zero in
  r <- syscall (Sys_if_nametoindex (CStr.c_str if_name)) ;;
  let ifr := {| ifr_name := ifr_name ifr; ifr_ifindex := Mem.to_int (ret r) |} in
  if ifr_ifindex ifr =? 0 then
    log_error ("Interface is not exist: " ++ CStr.c_str if_name) ;;;
    pure false
  else
    let ifr := {| ifr_name := CStr.strlcpy (ifr_name ifr) (CStr.c_str br_name) IFNAMSIZ;
                  ifr_ifindex := ifr_ifindex ifr |} in
    s <- syscall Sys_socket ;;
    let sock := ret s in
    rc <- TEMP_FAILURE_RETRY fuel (syscall (Sys_ioctl sock SIOCBRDELIF (ArgIfreq ifr))) ;;
    if negb (rc =? 0) then
      log_error_errno ("Could not remove interface " ++ CStr.c_str if_name
                       ++ " from bridge " ++ ifr_name ifr) ;;;
      unique_fd_release sock ;;;
      pure false
    else
      unique_fd_release sock ;;;
      pure true.

(** The body shared by the two loops
    [for (i = ...; i < bound; i++) { memset(name, 0, IFNAMSIZ);
       if (ifindices[i] == 0 || !if_indextoname(ifindices[i], name)) continue;
       out->push_back(name); }]
    with [n] iterations left.  [if_indextoname] is not called for a zero
    entry; a read past the end of [ifindices] is undefined. *)
Fixpoint scan_indices (n : nat) (i : nat) (ifindices : list Z)
         (out : list string) : M (list string) :=
  match n with
  | O => pure out
  | S n' =>
      match Mem.load_int ifindices i with
      | None => undefined_behaviour
      | Some idx =>
          if idx =? 0 then scan_indices n' (S i) ifindices out
          else
            r <- syscall (Sys_if_indextoname (Mem.to_unsigned idx)) ;;
            match wr_name r with
            | None => scan_indices n' (S i) ifindices out
            | Some name => scan_indices n' (S i) ifindices (out ++ [name])
            end
      end
  end.

(** [int ifindices[MAX_PORTS]; memset(ifindices, 0, MAX_PORTS);]
    The array has [MAX_PORTS * sizeof(int)] bytes of whatever the stack
    holds; [memset] is given the length [MAX_PORTS]. *)
Definition ifindices_init (stack : nat -> Z) : list Z :=
  Mem.memset (Mem.uninitialised stack (MAX_PORTS * sizeof_int)) 0 (Z.to_nat MAX_PORTS).

(** [bool BridgeTool::GetBridges(std::vector<std::string>* bridges)].
    [stack] gives the bytes found in the frame; [bridges] is the vector the
    caller passes, and the vector it holds afterwards is returned next to
    the boolean. *)
Definition GetBridges (stack : nat -> Z) (bridges : list string)
  : M (bool * list string) :=
  s <- syscall Sys_socket ;;
  let sock := ret s in
  if sock <? 0 then
    log_error_errno "Failed to open socket to get bridge interfaces" ;;;
    unique_fd_release sock ;;;
    pure (false, bridges)
  else
    let ifindices := ifindices_init stack in
    r <- syscall (Sys_ioctl sock SIOCGIFBR (ArgBrctl BRCTL_GET_BRIDGES MAX_PORTS)) ;;
    let ifindices := Mem.copy_to_user ifindices MAX_PORTS (wr_indices r) in
    let num := ret r in
    bridges' <- scan_indices (Z.to_nat num) 0 ifindices bridges ;;
    unique_fd_release sock ;;;
    pure (true, bridges').

(** [bool BridgeTool::GetInterfacesInBridge(std::string br_name,
                                            std::vector<std::string>* interfaces)].
    [request] is not cleared; [name0] is what its name field held. *)
Definition GetInterfacesInBridge (stack : nat -> Z) (name0 : string)
           (br_name : string) (interfaces : list string)
  : M (bool * list string) :=
  s <- syscall Sys_socket ;;
  let sock := ret s in
  if sock <? 0 then
    log_error_errno "Failed to open socket to get bridge interfaces" ;;;
    unique_fd_release sock ;;;
    pure (false, interfaces)
  else
    let ifindices := ifindices_init stack in
    let request_name := CStr.strlcpy name0 (CStr.c_str br_name) IFNAMSIZ in
    r <- syscall (Sys_ioctl sock SIOCDEVPRIVATE
                    (ArgIfreqBrctl request_name BRCTL_GET_PORT_LIST MAX_PORTS)) ;;
    let ifindices := Mem.copy_to_user ifindices MAX_PORTS (wr_indices r) in
    if ret r <? 0 then
      log_error "Failed to ioctl SIOCDEVPRIVATE to get interfaces in bridge" ;;;
      unique_fd_release sock ;;;
      pure (false, interfaces)
    else
      interfaces' <- scan_indices (Z.to_nat MAX_PORTS) 0 ifindices interfaces ;;
      unique_fd_release sock ;;;
      pure (true, interfaces').

End BridgeTool.

Arguments kstate {K} w.
Arguments calls {K} w.
Arguments logs {K} w.
Arguments errno {K} w.
Arguments Build_World {K} kstate calls logs errno.
Arguments Returns {K A} a w.
Arguments OutOfFuel {K A}.
Arguments Undefined {K A}.
Arguments pure {K A} a w.
Arguments bind {K A B} m f w.
Arguments reply {K} kernel w c.
Arguments after {K} kernel w c.
Arguments syscall {K} kernel c w.
Arguments get_errno {K} w.
Arguments set_errno {K} e w.
Arguments log_error {K} text w.
Arguments log_error_errno {K} text w.
Arguments unique_fd_release {K} kernel fd w.
Arguments TEMP_FAILURE_RETRY {K} fuel exp w.
Arguments createBridge {K} kernel fuel br_name w.
Arguments deleteBridge {K} kernel fuel br_name w.
Arguments addIfaceToBridge {K} kernel fuel br_name if_name w.
Arguments removeIfaceFromBridge {K} kernel fuel br_name if_name w.
Arguments scan_indices {K} kernel n i ifindices out w.
Arguments GetBridges {K} kernel stack bridges w.
Arguments GetInterfacesInBridge {K} kernel stack name0 br_name interfaces w.

(** ** Vocabulary of the statements *)

Section Vocabulary.

Variable K : Type.
Variable kernel : K -> Syscall -> Reply * K.

(** The call [c], made in world [w], is cut short by a signal: it returns
    -1 and leaves [EINTR] in [errno]. *)
Definition interrupted (w : World K) (c : Syscall) : Prop :=
  ret (reply kernel w c) = -1 /\ err (reply kernel w c) = EINTR.

(** The calls made by the destructor of [unique_fd] holding [fd]. *)
Definition release_calls (fd : Z) : list Syscall :=
  if fd =? -1 then [] else [Sys_close fd].

(** The world after the destructor of [unique_fd] holding [fd] has run,
    and the world after a line has gone to the error log. *)
Definition released (w : World K) (fd : Z) : World K :=
  if fd =? -1 then w
  else {| kstate := snd (kernel (kstate w) (Sys_close fd));
          calls := calls w ++ [Sys_close fd];
          logs := logs w;
          errno := errno w |}.

Definition logged (w : World K) (line : LogLine) : World K :=
  {| kstate := kstate w; calls := calls w;
     logs := logs w ++ [line]; errno := errno w |}.

(** The world after [c] has been made [k] times in a row, and what it
    means for [c] to be interrupted exactly [k] times before it gets
    through: the first [k] attempts are interrupted, the next one is not. *)
Fixpoint reissued (w : World K) (c : Syscall) (k : nat) : World K :=
  match k with
  | O => w
  | S k' => reissued (after kernel w c) c k'
  end.

Definition interrupted_times (w : World K) (c : Syscall) (k : nat) : Prop :=
  (forall j, (j < k)%nat -> interrupted (reissued w c j) c)
  /\ ~ interrupted (reissued w c k) c.

(** The value the attempt after [k] interrupted ones returns, and the
    world it leaves. *)
Definition verdict (w : World K) (c : Syscall) (k : nat) : Z :=
  ret (reply kernel (reissued w c k) c).

Definition settled (w : World K) (c : Syscall) (k : nat) : World K :=
  after kernel (reissued w c k) c.

(** The descriptor [socket] returns in [w], and the world it leaves. *)
Definition sock_of (w : World K) : Z := ret (reply kernel w Sys_socket).
Definition opened (w : World K) : World K := after kernel w Sys_socket.

(** The log line of an enumeration that got no descriptor. *)
Definition socket_line (w : World K) : LogLine :=
  ("Failed to open socket to get bridge interfaces"%string,
   Some (errno (opened w))).

(** The enumeration requests, as the two operations issue them. *)
Definition get_bridges_call (w : World K) : Syscall :=
  Sys_ioctl (sock_of w) SIOCGIFBR (ArgBrctl BRCTL_GET_BRIDGES MAX_PORTS).

Definition get_ports_call (w : World K) (name0 br_name : string) : Syscall :=
  Sys_ioctl (sock_of w) SIOCDEVPRIVATE
    (ArgIfreqBrctl (CStr.strlcpy name0 (CStr.c_str br_name) IFNAMSIZ)
                   BRCTL_GET_PORT_LIST MAX_PORTS).

(** The index array as the scanning loop finds it: initialised by the
    program, then written by the kernel's reply [r]. *)
Definition ifindices_after (stack : nat -> Z) (r : Reply) : list Z :=
  Mem.copy_to_user (ifindices_init stack) MAX_PORTS (wr_indices r).

(** The result of an enumeration in the words of the specification: the
    indices are visited in order; a zero index is passed over; a non-zero
    index is resolved back to a name, and contributes that name when the
    resolution succeeds.  The world is threaded through, since an
    interface can vanish between two resolutions. *)
Fixpoint resolve_all (w : World K) (idxs : list Z) : list string * World K :=
  match idxs with
  | [] => ([], w)
  | idx :: rest =>
      if idx =? 0 then resolve_all w rest
      else
        let c := Sys_if_indextoname (Mem.to_unsigned idx) in
        let tail := resolve_all (after kernel w c) rest in
        match wr_name (reply kernel w c) with
        | Some name => (name :: fst tail, snd tail)
        | None => tail
        end
  end.

(** The same for a kernel whose name table [name_of] does not move. *)
Definition resolved_names (name_of : Z -> option string) (idxs : list Z) : list string :=
  flat_map (fun idx =>
              if idx =? 0 then []
              else match name_of (Mem.to_unsigned idx) with
                   | Some name => [name]
                   | None => []
                   end) idxs.

Definition stable_names (name_of : Z -> option string) : Prop :=
  forall k idx, wr_name (fst (kernel k (Sys_if_indextoname idx))) = name_of idx.

End Vocabulary.

Arguments interrupted {K} kernel w c.
Arguments reissued {K} kernel w c k.
Arguments interrupted_times {K} kernel w c k.
Arguments verdict {K} kernel w c k.
Arguments settled {K} kernel w c k.
Arguments released {K} kernel w fd.
Arguments logged {K} w line.
Arguments sock_of {K} kernel w.
Arguments opened {K} kernel w.
Arguments socket_line {K} kernel w.
Arguments get_bridges_call {K} kernel w.
Arguments get_ports_call {K} kernel w name0 br_name.
Arguments resolve_all {K} kernel w idxs.
Arguments stable_names {K} kernel name_of.

(** ** A simulated kernel, for concrete runs *)

Module Sim.

Record state := {
  socket_fails : bool;          (* descriptor table exhausted *)
  interrupts : nat;             (* ioctl calls still to be cut short by a signal *)
  rejects : bool;               (* the bridge layer refuses every request *)
  pads_port_list : bool;        (* GET_PORT_LIST copies the whole table, zero-padded *)
  ifaces : list (Z * string);   (* live interfaces: index and name *)
  bridge_table : list Z;        (* indices of the bridges *)
  port_table : list Z           (* indices of the ports of the queried bridge *)
}.

Definition ok (r : Z) : Reply :=
  {| ret := r; err := 0; wr_indices := []; wr_name := None |}.

Definition fails (e : Z) : Reply :=
  {| ret := -1; err := e; wr_indices := []; wr_name := None |}.

Definition fill (r : list Z) : Reply :=
  {| ret := Z.of_nat (List.length r); err := 0; wr_indices := r; wr_name := None |}.

Definition interrupt_once (k : state) : state :=
  {| socket_fails := socket_fails k; interrupts := Nat.pred (interrupts k);
     rejects := rejects k; pads_port_list := pads_port_list k;
     ifaces := ifaces k;
     bridge_table := bridge_table k; port_table := port_table k |}.

Definition index_of (k : state) (name : string) : Z :=
  match find (fun e => String.eqb (snd e) name) (ifaces k) with
  | Some e => fst e
  | None => 0
  end.

Definition name_of (k : state) (i : Z) : option string :=
  option_map snd (find (fun e => fst e =? i) (ifaces k)).

Definition step (k : state) (c : Syscall) : Reply * state :=
  match c with
  | Sys_socket => (if socket_fails k then fails EMFILE else ok 3, k)
  | Sys_close _ => (ok 0, k)
  | Sys_if_nametoindex name => (ok (index_of k name), k)
  | Sys_if_indextoname i =>
      ({| ret := 0; err := 0; wr_indices := []; wr_name := name_of k i |}, k)
  | Sys_ioctl fd req arg =>
      if fd <? 0 then (fails EBADF, k)
      else if (0 <? interrupts k)%nat then (fails EINTR, interrupt_once k)
      else if rejects k then (fails 19, k)
      else
        match req, arg with
        | SIOCGIFBR, ArgBrctl BRCTL_GET_BRIDGES cap =>
            (fill (firstn (Z.to_nat cap) (bridge_table k)), k)
        | SIOCDEVPRIVATE, ArgIfreqBrctl _ BRCTL_GET_PORT_LIST cap =>
            if pads_port_list k
            then (fill (firstn (Z.to_nat cap)
                          (port_table k ++ repeat 0 (Z.to_nat cap))), k)
            else (fill (firstn (Z.to_nat cap) (port_table k)), k)
        | _, _ => (ok 0, k)
        end
  end.

(** A machine with [lo], [eth0], [wlan0], and the bridges [br0], [br1]. *)
Definition machine : state :=
  {| socket_fails := false; interrupts := 0; rejects := false;
     pads_port_list := true;
     ifaces := [(1, "lo"); (2, "eth0"); (3, "wlan0"); (10, "br0"); (11, "br1")]%string;
     bridge_table := [10; 11]; port_table := [2; 0; 3] |}.

(** The same machine out of descriptors; with a signal pending; with a
    bridge layer that copies only the ports that exist; and with 1030
    bridges, all called [br]. *)
Definition exhausted : state :=
  {| socket_fails := true; interrupts := 0; rejects := false;
     pads_port_list := true; ifaces := ifaces machine;
     bridge_table := [10; 11]; port_table := [2; 0; 3] |}.

Definition signalled : state :=
  {| socket_fails := false; interrupts := 1; rejects := false;
     pads_port_list := true; ifaces := ifaces machine;
     bridge_table := [10; 11]; port_table := [2; 0; 3] |}.

Definition refusing : state :=
  {| socket_fails := false; interrupts := 0; rejects := true;
     pads_port_list := true; ifaces := ifaces machine;
     bridge_table := [10; 11]; port_table := [2; 0; 3] |}.

Definition sparse : state :=
  {| socket_fails := false; interrupts := 0; rejects := false;
     pads_port_list := false; ifaces := ifaces machine;
     bridge_table := [10; 11]; port_table := [2; 0; 3] |}.

Definition crowded : state :=
  {| socket_fails := false; interrupts := 0; rejects := false;
     pads_port_list := true;
     ifaces := map (fun i => (Z.of_nat i, "br"%string)) (seq 100 1030);
     bridge_table := map Z.of_nat (seq 100 1030); port_table := [] |}.

Definition boot (k : state) : World state :=
  {| kstate := k; calls := []; logs := []; errno := 0 |}.

(** All bytes of the stack are [0xFF], or all are zero. *)
Definition dirty_stack (o : nat) : Z := 255.
Definition clean_stack (o : nat) : Z := 0.

End Sim.

(** ** Further vocabulary: counting calls, and two kernels that misbehave *)

Definition is_socket (c : Syscall) : bool :=
  match c with Sys_socket => true | _ => false end.

Definition is_close (c : Syscall) : bool :=
  match c with Sys_close _ => true | _ => false end.

Definition count_sockets (cs : list Syscall) : nat :=
  List.length (filter is_socket cs).

Definition count_closes (cs : list Syscall) : nat :=
  List.length (filter is_close cs).

(** The lookups the scanning loop makes for the slot values [idxs]: one
    [if_indextoname] per non-zero value, in order. *)
Definition resolution_calls (idxs : list Z) : list Syscall :=
  map (fun idx => Sys_if_indextoname (Mem.to_unsigned idx))
      (filter (fun idx => negb (idx =? 0)) idxs).

Module Odd.

(** A kernel under a storm of signals: every ioctl is interrupted. *)
Definition storm (k : unit) (c : Syscall) : Reply * unit :=
  match c with
  | Sys_socket => (Sim.ok 3, k)
  | Sys_ioctl _ _ _ => (Sim.fails EINTR, k)
  | Sys_if_nametoindex _ => (Sim.ok 2, k)
  | _ => (Sim.ok 0, k)
  end.

(** A kernel that reports 1025 bridges to a caller that offered room for
    1024, and copies none. *)
Definition overcounting (k : unit) (c : Syscall) : Reply * unit :=
  match c with
  | Sys_socket => (Sim.ok 3, k)
  | Sys_ioctl _ SIOCGIFBR _ => (Sim.ok 1025, k)
  | _ => (Sim.ok 0, k)
  end.

Definition boot : World unit :=
  {| kstate := tt; calls := []; logs := []; errno := 0 |}.

End Odd.

(** * Properties *)

(** ** Arrays and strings *)

Module MemFacts.
Import Mem.

Lemma memset_length buf c n : List.length (memset buf c n) = List.length buf.
Proof.
  revert buf; induction n as [|n IH]; intros [|b buf]; simpl; auto.
Qed.

Lemma overwrite_length buf src : List.length (overwrite buf src) = List.length buf.
Proof.
  revert src; induction buf as [|b buf IH]; intros [|s src]; simpl; auto.
Qed.

Lemma uninitialised_length stack n :
  List.length (uninitialised stack n) = Z.to_nat n.
Proof. unfold uninitialised. now rewrite length_map, length_seq. Qed.

Lemma ifindices_init_length stack :
  List.length (ifindices_init stack) = 4096%nat.
Proof.
  unfold ifindices_init. rewrite memset_length, uninitialised_length.
  reflexivity.
Qed.

Lemma ifindices_after_length stack r :
  List.length (ifindices_after stack r) = 4096%nat.
Proof.
  unfold ifindices_after, copy_to_user.
  now rewrite overwrite_length, ifindices_init_length.
Qed.

(** A read inside the array is defined. *)
Lemma load_int_inside buf i :
  (4 * i + 4 <= List.length buf)%nat -> exists v, load_int buf i = Some v.
Proof.
  intros H. unfold load_int.
  assert (L : List.length (skipn (4 * i) buf) = (List.length buf - 4 * i)%nat)
    by apply length_skipn.
  destruct (skipn (4 * i) buf) as [|b0 [|b1 [|b2 [|b3 rest]]]];
    simpl in L; try lia.
  eexists; reflexivity.
Qed.

(** A read past the end is not. *)
Lemma load_int_outside buf i :
  (List.length buf <= 4 * i)%nat -> load_int buf i = None.
Proof.
  intros H. unfold load_int. now rewrite skipn_all2.
Qed.

Lemma slots_from_inside buf n : forall i,
  (4 * (i + n) <= List.length buf)%nat ->
  exists vs, slots_from buf i n = Some vs /\ List.length vs = n.
Proof.
  induction n as [|n IH]; intros i H; simpl.
  - exists []. split; reflexivity.
  - destruct (load_int_inside buf i) as [v Hv]; [lia|].
    destruct (IH (S i)) as [vs [Hvs L]]; [lia|].
    rewrite Hv, Hvs. exists (v :: vs). split; [reflexivity | simpl; congruence].
Qed.

(** The first [4 * j] bytes of a [memset] of at least that length are
    zero bytes, so the slots below [j] read as zero. *)
Lemma skipn_memset_zero buf n : forall o,
  (o + 4 <= n)%nat -> (n <= List.length buf)%nat ->
  exists rest, skipn o (memset buf 0 n) = 0 :: 0 :: 0 :: 0 :: rest.
Proof.
  revert buf; induction n as [|n IH]; intros buf o Ho Hn; [lia|].
  destruct buf as [|b buf]; simpl in Hn; [lia|].
  destruct o as [|o].
  - simpl.
    destruct n as [|[|[|n]]]; try lia.
    destruct buf as [|b1 [|b2 [|b3 buf]]]; simpl in Hn; try lia.
    simpl. eexists; reflexivity.
  - simpl. apply IH; lia.
Qed.

Lemma memset_slot_zero buf n i :
  (4 * i + 4 <= n)%nat -> (n <= List.length buf)%nat ->
  load_int (memset buf 0 n) i = Some 0.
Proof.
  intros Hi Hn. unfold load_int.
  destruct (skipn_memset_zero buf n (4 * i)) as [rest E]; [lia | lia |].
  rewrite E. reflexivity.
Qed.

(** Bytes at and after offset [n] are not touched by [memset _ _ n]. *)
Lemma skipn_memset_beyond buf c n : forall o,
  (n <= o)%nat -> skipn o (memset buf c n) = skipn o buf.
Proof.
  revert buf; induction n as [|n IH]; intros buf o Ho.
  - destruct buf; reflexivity.
  - destruct buf as [|b buf]; [reflexivity|].
    destruct o as [|o]; [lia|]. simpl. apply IH. lia.
Qed.

Lemma memset_slot_beyond buf c n i :
  (n <= 4 * i)%nat -> load_int (memset buf c n) i = load_int buf i.
Proof.
  intros H. unfold load_int. now rewrite skipn_memset_beyond.
Qed.

End MemFacts.

Module CStrFacts.
Import CStr.

Lemma take_length n : forall s,
  String.length (take n s) = Nat.min n (String.length s).
Proof.
  induction n as [|n IH]; intros [|c s]; simpl; auto.
Qed.

(** [take n s] is a prefix of [s]. *)
Lemma take_prefix n : forall s, exists rest, s = (take n s ++ rest)%string.
Proof.
  induction n as [|n IH]; intros s.
  - exists s. destruct s; reflexivity.
  - destruct s as [|c s]; [exists EmptyString; reflexivity|].
    destruct (IH s) as [rest E]. exists rest. simpl. now rewrite <- E.
Qed.

End CStrFacts.

(** ** Runs of the building blocks *)

Section Runs.

Variable K : Type.
Variable kernel : K -> Syscall -> Reply * K.

Lemma calls_after (w : World K) c : calls (after kernel w c) = calls w ++ [c].
Proof. reflexivity. Qed.

Lemma calls_logged (w : World K) line : calls (logged w line) = calls w.
Proof. reflexivity. Qed.

Lemma release_run fd (w : World K) :
  unique_fd_release kernel fd w = Returns tt (released kernel w fd).
Proof.
  unfold unique_fd_release, released.
  destruct (fd =? -1); reflexivity.
Qed.

Lemma calls_released (w : World K) fd :
  calls (released kernel w fd) = calls w ++ release_calls fd.
Proof.
  unfold released, release_calls.
  destruct (fd =? -1); simpl; [now rewrite app_nil_r | reflexivity].
Qed.

(** One pass through the body of [TEMP_FAILURE_RETRY] around a call that
    is not interrupted: the loop ends with the call's return value. *)
Lemma retry_done fuel c (w : World K) :
  ~ interrupted kernel w c ->
  TEMP_FAILURE_RETRY (S fuel) (syscall kernel c) w
  = Returns (ret (reply kernel w c)) (after kernel w c).
Proof.
  intros NI. simpl. unfold bind, syscall, get_errno, after. simpl.
  destruct (ret (reply kernel w c) =? -1) eqn:R; simpl; [|reflexivity].
  destruct (err (reply kernel w c) =? EINTR) eqn:E; [|reflexivity].
  exfalso. apply NI. split; [now apply Z.eqb_eq | now apply Z.eqb_eq].
Qed.

(** Around an interrupted call: the call is made again. *)
Lemma retry_again fuel c (w : World K) :
  interrupted kernel w c ->
  TEMP_FAILURE_RETRY (S fuel) (syscall kernel c) w
  = TEMP_FAILURE_RETRY fuel (syscall kernel c) (after kernel w c).
Proof.
  intros [R E]. simpl. unfold bind, syscall, get_errno, after. simpl.
  rewrite R, E. reflexivity.
Qed.

(** The scanning loop computes what the specification describes, as long
    as it stays inside the array. *)
Lemma scan_indices_resolve buf n : forall i vs out (w : World K),
  Mem.slots_from buf i n = Some vs ->
  scan_indices kernel n i buf out w
  = Returns (out ++ fst (resolve_all kernel w vs)) (snd (resolve_all kernel w vs)).
Proof.
  induction n as [|n IH]; intros i vs out w H; simpl in H.
  - injection H as <-. simpl. unfold pure. now rewrite app_nil_r.
  - destruct (Mem.load_int buf i) as [v|] eqn:L; [|discriminate].
    destruct (Mem.slots_from buf (S i) n) as [vs'|] eqn:S'; [|discriminate].
    injection H as <-. simpl. rewrite L.
    destruct (v =? 0) eqn:Z0.
    + now apply IH.
    + unfold bind, syscall.
      destruct (wr_name (reply kernel w (Sys_if_indextoname (Mem.to_unsigned v))))
        as [name|] eqn:N.
      * rewrite (IH _ _ _ _ S'). simpl. now rewrite <- app_assoc.
      * now apply IH.
Qed.

(** It leaves the defined behaviour as soon as it is asked to read a slot
    past the end of the array. *)
Lemma scan_indices_overrun buf n : forall i out (w : World K),
  (List.length buf <= 4 * i)%nat ->
  scan_indices kernel (S n) i buf out w = Undefined.
Proof.
  intros i out w H. simpl. now rewrite MemFacts.load_int_outside.
Qed.


(** Resolving names issues no ioctl of the program's own. *)
Lemma resolve_all_ioctls vs : forall (w : World K),
  count_ioctls (calls (snd (resolve_all kernel w vs))) = count_ioctls (calls w).
Proof.
  induction vs as [|v vs IH]; intros w; simpl; [reflexivity|].
  destruct (v =? 0); [apply IH|].
  assert (E : count_ioctls (calls (after kernel w (Sys_if_indextoname (Mem.to_unsigned v))))
              = count_ioctls (calls w)).
  { rewrite calls_after. unfold count_ioctls.
    rewrite filter_app, length_app. simpl. lia. }
  destruct (wr_name _); simpl; rewrite IH; exact E.
Qed.

(** With a name table that does not move, the result is a plain filter
    and map over the indices. *)
Lemma resolve_all_stable name_of vs : forall (w : World K),
  stable_names kernel name_of ->
  fst (resolve_all kernel w vs) = resolved_names name_of vs.
Proof.
  intros w St. revert w.
  induction vs as [|v vs IH]; intros w; simpl; [reflexivity|].
  destruct (v =? 0); [apply IH|].
  unfold reply. rewrite St.
  destruct (name_of (Mem.to_unsigned v)); simpl; now rewrite IH.
Qed.

Lemma count_ioctls_app (a b : list Syscall) :
  count_ioctls (a ++ b) = (count_ioctls a + count_ioctls b)%nat.
Proof. unfold count_ioctls. now rewrite filter_app, length_app. Qed.

Lemma count_ioctls_release fd : count_ioctls (release_calls fd) = 0%nat.
Proof. unfold release_calls. destruct (fd =? -1); reflexivity. Qed.

End Runs.

(** ** Runs of the retry loop and of the four mutating operations *)

Section Mutators.

Variable K : Type.
Variable kernel : K -> Syscall -> Reply * K.

Lemma calls_reissued c k : forall (w : World K),
  calls (reissued kernel w c k) = calls w ++ repeat c k.
Proof.
  induction k as [|k IH]; intros w; simpl.
  - now rewrite app_nil_r.
  - rewrite IH, calls_after, <- app_assoc. reflexivity.
Qed.

(** [TEMP_FAILURE_RETRY] around a call that is interrupted [k] times makes
    the call [k + 1] times and yields the last return value. *)
Lemma retry_run c k : forall fuel (w : World K),
  interrupted_times kernel w c k ->
  TEMP_FAILURE_RETRY (S k + fuel) (syscall kernel c) w
  = Returns (ret (reply kernel (reissued kernel w c k) c))
            (after kernel (reissued kernel w c k) c).
Proof.
  induction k as [|k IH]; intros fuel w [Hint Hlast].
  - simpl in Hlast. now apply retry_done.
  - change (S (S k) + fuel)%nat with (S (S k + fuel)).
    rewrite retry_again by (apply (Hint 0%nat); lia).
    simpl reissued. apply IH. split.
    + intros j Hj. apply (Hint (S j)). lia.
    + exact Hlast.
Qed.

Lemma calls_settled (w : World K) c k :
  calls (settled kernel w c k) = calls w ++ repeat c (S k).
Proof.
  unfold settled. rewrite calls_after, calls_reissued, <- app_assoc.
  f_equal. clear. induction k as [|k IH]; [reflexivity|].
  simpl. simpl in IH. now rewrite IH.
Qed.

Ltac run_mutator H :=
  unfold bind at 1, syscall at 1;
  unfold bind at 1; rewrite (retry_run _ _ _ _ H);
  fold (sock_of kernel);
  match goal with
  | |- context [negb (?rc =? 0)] => destruct (rc =? 0)
  end; unfold bind, log_error_errno, pure; cbn [negb]; cbv beta iota;
  rewrite release_run; reflexivity.

Lemma createBridge_run fuel k br_name (w : World K) :
  let c := Sys_ioctl (sock_of kernel w) SIOCBRADDBR (ArgName (CStr.c_str br_name)) in
  let w1 := opened kernel w in
  interrupted_times kernel w1 c k ->
  createBridge kernel (S k + fuel) br_name w
  = Returns (verdict kernel w1 c k =? 0)
      (released kernel
         (if verdict kernel w1 c k =? 0 then settled kernel w1 c k
          else logged (settled kernel w1 c k)
                 (("Could not add bridge " ++ CStr.c_str br_name)%string,
                  Some (errno (settled kernel w1 c k))))
         (sock_of kernel w)).
Proof.
  intros c w1 H. unfold createBridge, verdict, settled.
  run_mutator H.
Qed.

Lemma deleteBridge_run fuel k br_name (w : World K) :
  let c := Sys_ioctl (sock_of kernel w) SIOCBRDELBR (ArgName (CStr.c_str br_name)) in
  let w1 := opened kernel w in
  interrupted_times kernel w1 c k ->
  deleteBridge kernel (S k + fuel) br_name w
  = Returns (verdict kernel w1 c k =? 0)
      (released kernel
         (if verdict kernel w1 c k =? 0 then settled kernel w1 c k
          else logged (settled kernel w1 c k)
                 (("Could not remove bridge " ++ CStr.c_str br_name)%string,
                  Some (errno (settled kernel w1 c k))))
         (sock_of kernel w)).
Proof.
  intros c w1 H. unfold deleteBridge, verdict, settled.
  run_mutator H.
Qed.

Lemma addIfaceToBridge_run fuel k br_name if_name (w : World K) :
  let n := Sys_if_nametoindex (CStr.c_str if_name) in
  let w0 := after kernel w n in
  let ifr := {| ifr_name := CStr.take 15 (CStr.c_str br_name);
                ifr_ifindex := Mem.to_int (ret (reply kernel w n)) |} in
  let c := Sys_ioctl (sock_of kernel w0) SIOCBRADDIF (ArgIfreq ifr) in
  let w1 := opened kernel w0 in
  ifr_ifindex ifr <> 0 ->
  interrupted_times kernel w1 c k ->
  addIfaceToBridge kernel (S k + fuel) br_name if_name w
  = Returns (verdict kernel w1 c k =? 0)
      (released kernel
         (if verdict kernel w1 c k =? 0 then settled kernel w1 c k
          else logged (settled kernel w1 c k)
                 (("Could not add interface " ++ CStr.c_str if_name
                   ++ " into bridge " ++ ifr_name ifr)%string,
                  Some (errno (settled kernel w1 c k))))
         (sock_of kernel w0)).
Proof.
  intros n w0 ifr c w1 Hidx H. unfold addIfaceToBridge, verdict, settled.
  unfold bind at 1, syscall at 1. cbn [ifr_ifindex ifr_name].
  fold n w0. simpl in Hidx.
  destruct (Mem.to_int (ret (reply kernel w n)) =? 0) eqn:E;
    [apply Z.eqb_eq in E; contradiction|].
  change (CStr.strlcpy (ifr_name ifreq_zero) (CStr.c_str br_name) IFNAMSIZ)
    with (CStr.take 15 (CStr.c_str br_name)).
  run_mutator H.
Qed.

Lemma removeIfaceFromBridge_run fuel k br_name if_name (w : World K) :
  let n := Sys_if_nametoindex (CStr.c_str if_name) in
  let w0 := after kernel w n in
  let ifr := {| ifr_name := CStr.take 15 (CStr.c_str br_name);
                ifr_ifindex := Mem.to_int (ret (reply kernel w n)) |} in
  let c := Sys_ioctl (sock_of kernel w0) SIOCBRDELIF (ArgIfreq ifr) in
  let w1 := opened kernel w0 in
  ifr_ifindex ifr <> 0 ->
  interrupted_times kernel w1 c k ->
  removeIfaceFromBridge kernel (S k + fuel) br_name if_name w
  = Returns (verdict kernel w1 c k =? 0)
      (released kernel
         (if verdict kernel w1 c k =? 0 then settled kernel w1 c k
          else logged (settled kernel w1 c k)
                 (("Could not remove interface " ++ CStr.c_str if_name
                   ++ " from bridge " ++ ifr_name ifr)%string,
                  Some (errno (settled kernel w1 c k))))
         (sock_of kernel w0)).
Proof.
  intros n w0 ifr c w1 Hidx H. unfold removeIfaceFromBridge, verdict, settled.
  unfold bind at 1, syscall at 1. cbn [ifr_ifindex ifr_name].
  fold n w0. simpl in Hidx.
  destruct (Mem.to_int (ret (reply kernel w n)) =? 0) eqn:E;
    [apply Z.eqb_eq in E; contradiction|].
  change (CStr.strlcpy (ifr_name ifreq_zero) (CStr.c_str br_name) IFNAMSIZ)
    with (CStr.take 15 (CStr.c_str br_name)).
  run_mutator H.
Qed.

(** When the interface does not resolve, neither operation goes further
    than the lookup. *)
Lemma addIfaceToBridge_unresolved fuel br_name if_name (w : World K) :
  let n := Sys_if_nametoindex (CStr.c_str if_name) in
  Mem.to_int (ret (reply kernel w n)) = 0 ->
  addIfaceToBridge kernel fuel br_name if_name w
  = Returns false
      (logged (after kernel w n)
         (("Interface is not exist: " ++ CStr.c_str if_name)%string, None)).
Proof.
  intros n H. unfold addIfaceToBridge.
  unfold bind at 1, syscall at 1. cbn [ifr_ifindex ifr_name].
  fold n. rewrite H. reflexivity.
Qed.

Lemma removeIfaceFromBridge_unresolved fuel br_name if_name (w : World K) :
  let n := Sys_if_nametoindex (CStr.c_str if_name) in
  Mem.to_int (ret (reply kernel w n)) = 0 ->
  removeIfaceFromBridge kernel fuel br_name if_name w
  = Returns false
      (logged (after kernel w n)
         (("Interface is not exist: " ++ CStr.c_str if_name)%string, None)).
Proof.
  intros n H. unfold removeIfaceFromBridge.
  unfold bind at 1, syscall at 1. cbn [ifr_ifindex ifr_name].
  fold n. rewrite H. reflexivity.
Qed.

End Mutators.

(** ** Runs of the two enumerations *)

Section Enumerations.

Variable K : Type.
Variable kernel : K -> Syscall -> Reply * K.

Lemma ifindices_after_unfold stack (r : Reply) :
  ifindices_after stack r
  = Mem.copy_to_user (ifindices_init stack) MAX_PORTS (wr_indices r).
Proof. reflexivity. Qed.

Lemma GetBridges_no_socket stack bridges (w : World K) :
  sock_of kernel w < 0 ->
  GetBridges kernel stack bridges w
  = Returns (false, bridges)
      (released kernel (logged (opened kernel w) (socket_line kernel w)) (sock_of kernel w)).
Proof.
  intros H. unfold GetBridges.
  unfold bind at 1, syscall at 1. fold (sock_of kernel w).
  apply Z.ltb_lt in H. rewrite H.
  unfold bind, log_error_errno. rewrite release_run. reflexivity.
Qed.

Lemma GetInterfacesInBridge_no_socket stack name0 br_name interfaces (w : World K) :
  sock_of kernel w < 0 ->
  GetInterfacesInBridge kernel stack name0 br_name interfaces w
  = Returns (false, interfaces)
      (released kernel (logged (opened kernel w) (socket_line kernel w)) (sock_of kernel w)).
Proof.
  intros H. unfold GetInterfacesInBridge.
  unfold bind at 1, syscall at 1. fold (sock_of kernel w).
  apply Z.ltb_lt in H. rewrite H.
  unfold bind, log_error_errno. rewrite release_run. reflexivity.
Qed.

Lemma GetBridges_run stack bridges (w : World K) :
  let c := get_bridges_call kernel w in
  let r := reply kernel (opened kernel w) c in
  let w2 := after kernel (opened kernel w) c in
  0 <= sock_of kernel w ->
  ret r <= MAX_PORTS ->
  exists vs,
    Mem.slots_from (ifindices_after stack r) 0 (Z.to_nat (ret r)) = Some vs
    /\ GetBridges kernel stack bridges w
       = Returns (true, bridges ++ fst (resolve_all kernel w2 vs))
           (released kernel (snd (resolve_all kernel w2 vs)) (sock_of kernel w)).
Proof.
  intros c r w2 Hs Hn.
  destruct (MemFacts.slots_from_inside (ifindices_after stack r) (Z.to_nat (ret r)) 0)
    as [vs [Hvs _]].
  { rewrite MemFacts.ifindices_after_length. unfold MAX_PORTS in Hn. lia. }
  exists vs. split; [exact Hvs|].
  unfold GetBridges.
  unfold bind at 1, syscall at 1. fold (sock_of kernel w).
  apply Z.ltb_ge in Hs. rewrite Hs.
  unfold bind at 1, syscall at 1.
  fold (opened kernel w) (get_bridges_call kernel w). fold c. fold r w2.
  rewrite ifindices_after_unfold in Hvs.
  unfold bind at 1. rewrite (scan_indices_resolve _ _ _ _ _ _ _ _ Hvs).
  unfold bind. rewrite release_run. reflexivity.
Qed.

(** A kernel that reports more entries than the capacity it was handed
    sends the loop past the end of the array. *)
Lemma scan_indices_past_end buf L n : forall i out (w : World K),
  List.length buf = (4 * L)%nat -> (i <= L)%nat -> (L < i + n)%nat ->
  scan_indices kernel n i buf out w = Undefined.
Proof.
  induction n as [|n IH]; intros i out w HL Hi Hn; [lia|].
  destruct (Nat.eq_dec i L) as [->|Hne].
  - apply scan_indices_overrun. lia.
  - simpl. destruct (MemFacts.load_int_inside buf i) as [v Hv]; [lia|].
    rewrite Hv. destruct (v =? 0).
    + apply IH; auto; lia.
    + unfold bind, syscall. destruct (wr_name _); apply IH; auto; lia.
Qed.

Lemma GetBridges_overrun stack bridges (w : World K) :
  0 <= sock_of kernel w ->
  MAX_PORTS < ret (reply kernel (opened kernel w) (get_bridges_call kernel w)) ->
  GetBridges kernel stack bridges w = Undefined.
Proof.
  intros Hs Hn. unfold GetBridges.
  unfold bind at 1, syscall at 1. fold (sock_of kernel w).
  apply Z.ltb_ge in Hs. rewrite Hs.
  unfold bind at 1, syscall at 1.
  fold (opened kernel w) (get_bridges_call kernel w).
  unfold bind at 1.
  rewrite (scan_indices_past_end _ 1024).
  - reflexivity.
  - rewrite <- ifindices_after_unfold, MemFacts.ifindices_after_length.
    reflexivity.
  - lia.
  - unfold MAX_PORTS in Hn. lia.
Qed.

Lemma GetInterfacesInBridge_failed stack name0 br_name interfaces (w : World K) :
  let c := get_ports_call kernel w name0 br_name in
  0 <= sock_of kernel w ->
  ret (reply kernel (opened kernel w) c) < 0 ->
  GetInterfacesInBridge kernel stack name0 br_name interfaces w
  = Returns (false, interfaces)
      (released kernel
         (logged (after kernel (opened kernel w) c)
            ("Failed to ioctl SIOCDEVPRIVATE to get interfaces in bridge"%string, None))
         (sock_of kernel w)).
Proof.
  intros c Hs Hr. unfold GetInterfacesInBridge.
  unfold bind at 1, syscall at 1. fold (sock_of kernel w).
  apply Z.ltb_ge in Hs. rewrite Hs.
  unfold bind at 1, syscall at 1.
  fold (opened kernel w) (get_ports_call kernel w name0 br_name). fold c.
  apply Z.ltb_lt in Hr. rewrite Hr.
  unfold bind, log_error. rewrite release_run. reflexivity.
Qed.

Lemma GetInterfacesInBridge_run stack name0 br_name interfaces (w : World K) :
  let c := get_ports_call kernel w name0 br_name in
  let r := reply kernel (opened kernel w) c in
  let w2 := after kernel (opened kernel w) c in
  0 <= sock_of kernel w ->
  0 <= ret r ->
  exists vs,
    Mem.slots_from (ifindices_after stack r) 0 (Z.to_nat MAX_PORTS) = Some vs
    /\ GetInterfacesInBridge kernel stack name0 br_name interfaces w
       = Returns (true, interfaces ++ fst (resolve_all kernel w2 vs))
           (released kernel (snd (resolve_all kernel w2 vs)) (sock_of kernel w)).
Proof.
  intros c r w2 Hs Hr.
  destruct (MemFacts.slots_from_inside (ifindices_after stack r) (Z.to_nat MAX_PORTS) 0)
    as [vs [Hvs _]].
  { rewrite MemFacts.ifindices_after_length. reflexivity. }
  exists vs. split; [exact Hvs|].
  unfold GetInterfacesInBridge.
  unfold bind at 1, syscall at 1. fold (sock_of kernel w).
  apply Z.ltb_ge in Hs. rewrite Hs.
  unfold bind at 1, syscall at 1.
  fold (opened kernel w) (get_ports_call kernel w name0 br_name). fold c. fold r w2.
  apply Z.ltb_ge in Hr. rewrite Hr.
  rewrite ifindices_after_unfold in Hvs.
  unfold bind at 1. rewrite (scan_indices_resolve _ _ _ _ _ _ _ _ Hvs).
  unfold bind. rewrite release_run. reflexivity.
Qed.

End Enumerations.

(** * Statements of the specification *)

(** ** Initialisation of the index array *)

Section Initialisation.

(** What [memset(ifindices, 0, MAX_PORTS)] does to the array, whatever the
    stack held: the first 256 slots read zero, and every later slot still
    reads what the stack held. *)
Lemma ifindices_init_cleared stack i :
  (i < 256)%nat -> Mem.load_int (ifindices_init stack) i = Some 0.
Proof.
  intros H. unfold ifindices_init.
  apply MemFacts.memset_slot_zero.
  - change (Z.to_nat MAX_PORTS) with 1024%nat. lia.
  - rewrite MemFacts.uninitialised_length.
    change (Z.to_nat MAX_PORTS) with 1024%nat.
    change (Z.to_nat (MAX_PORTS * sizeof_int)) with 4096%nat. lia.
Qed.

Lemma ifindices_init_untouched stack i :
  (256 <= i)%nat ->
  Mem.load_int (ifindices_init stack) i
  = Mem.load_int (Mem.uninitialised stack (MAX_PORTS * sizeof_int)) i.
Proof.
  intros H. unfold ifindices_init.
  apply MemFacts.memset_slot_beyond.
  change (Z.to_nat MAX_PORTS) with 1024%nat. lia.
Qed.

End Initialisation.

(** C1.  The claim: both enumerations zero the whole 1024-slot index array
    before the kernel call, so that a slot the kernel does not write reads
    zero and counts as absent.  The program passes [MAX_PORTS] as the byte
    count of [memset], which covers 256 of the 1024 four-byte slots.  On a
    stack of [0xFF] bytes slot 255 reads 0 while slots 256 and 1023 read -1;
    and when the kernel copies only the three ports it has,
    [GetInterfacesInBridge] goes on to resolve the 768 slots nobody wrote,
    each as interface index 4294967295. *)
Theorem ifindices_cleared_only_in_part :
  Mem.load_int (ifindices_init Sim.dirty_stack) 255 = Some 0
  /\ Mem.load_int (ifindices_init Sim.dirty_stack) 256 = Some (-1)
  /\ Mem.load_int (ifindices_init Sim.dirty_stack) 1023 = Some (-1)
  /\ match GetInterfacesInBridge Sim.step Sim.dirty_stack EmptyString "br0" []
             (Sim.boot Sim.sparse) with
     | Returns (b, interfaces) w' =>
         b = true
         /\ interfaces = ["eth0"; "wlan0"]%string
         /\ List.length (filter (is_resolution_of 4294967295) (calls w')) = 768%nat
     | _ => False
     end.
Proof.
  split; [|split; [|split]].
  - apply ifindices_init_cleared. lia.
  - rewrite ifindices_init_untouched by lia. vm_compute. reflexivity.
  - rewrite ifindices_init_untouched by lia. vm_compute. reflexivity.
  - vm_compute. repeat split; reflexivity.
Qed.

(** ** Failure to obtain the control handle, and unresolved interfaces *)

Section Handles.

Variable K : Type.
Variable kernel : K -> Syscall -> Reply * K.

Lemma uninterrupted_once (w : World K) c :
  ~ interrupted kernel w c -> interrupted_times kernel w c 0.
Proof. intros H. split; [intros j Hj; lia | exact H]. Qed.

Ltac trace :=
  repeat match goal with x := _ |- _ => subst x end;
  rewrite ?calls_released, ?calls_logged, ?calls_settled;
  unfold opened; rewrite ?calls_after; simpl repeat;
  rewrite <- ?app_assoc; reflexivity.

Lemma released_keeps_logs (w : World K) fd :
  logs (released kernel w fd) = logs w.
Proof. unfold released. destruct (fd =? -1); reflexivity. Qed.

(** C2, as the program has it.  The two enumerations test the descriptor:
    when [socket] returns a negative value they write one line to the error
    log, return [false], leave the caller's vector alone and make no
    request.  The four mutating operations do not test it: they make their
    request on whatever [socket] returned, and when that request returns a
    non-zero value they write one line to the error log and return
    [false]. *)
Theorem handle_failure_by_operation :
  (forall stack bridges (w : World K),
      sock_of kernel w < 0 ->
      exists w',
        GetBridges kernel stack bridges w = Returns (false, bridges) w'
        /\ calls w' = calls w ++ Sys_socket :: release_calls (sock_of kernel w)
        /\ logs w' = logs w ++ [socket_line kernel w])
  /\ (forall stack name0 br_name interfaces (w : World K),
      sock_of kernel w < 0 ->
      exists w',
        GetInterfacesInBridge kernel stack name0 br_name interfaces w
        = Returns (false, interfaces) w'
        /\ calls w' = calls w ++ Sys_socket :: release_calls (sock_of kernel w)
        /\ logs w' = logs w ++ [socket_line kernel w])
  /\ (forall fuel br_name (w : World K),
      let c := Sys_ioctl (sock_of kernel w) SIOCBRADDBR (ArgName (CStr.c_str br_name)) in
      sock_of kernel w < 0 ->
      ~ interrupted kernel (opened kernel w) c ->
      ret (reply kernel (opened kernel w) c) <> 0 ->
      exists w',
        createBridge kernel (S fuel) br_name w = Returns false w'
        /\ calls w' = calls w ++ Sys_socket :: c :: release_calls (sock_of kernel w)
        /\ logs w'
           = logs w ++ [(("Could not add bridge " ++ CStr.c_str br_name)%string,
                         Some (errno (after kernel (opened kernel w) c)))])
  /\ (forall fuel br_name (w : World K),
      let c := Sys_ioctl (sock_of kernel w) SIOCBRDELBR (ArgName (CStr.c_str br_name)) in
      sock_of kernel w < 0 ->
      ~ interrupted kernel (opened kernel w) c ->
      ret (reply kernel (opened kernel w) c) <> 0 ->
      exists w',
        deleteBridge kernel (S fuel) br_name w = Returns false w'
        /\ calls w' = calls w ++ Sys_socket :: c :: release_calls (sock_of kernel w)
        /\ logs w'
           = logs w ++ [(("Could not remove bridge " ++ CStr.c_str br_name)%string,
                         Some (errno (after kernel (opened kernel w) c)))])
  /\ (forall fuel br_name if_name (w : World K),
      let n := Sys_if_nametoindex (CStr.c_str if_name) in
      let w0 := after kernel w n in
      let ifr := {| ifr_name := CStr.take 15 (CStr.c_str br_name);
                    ifr_ifindex := Mem.to_int (ret (reply kernel w n)) |} in
      let c := Sys_ioctl (sock_of kernel w0) SIOCBRADDIF (ArgIfreq ifr) in
      ifr_ifindex ifr <> 0 ->
      sock_of kernel w0 < 0 ->
      ~ interrupted kernel (opened kernel w0) c ->
      ret (reply kernel (opened kernel w0) c) <> 0 ->
      exists w',
        addIfaceToBridge kernel (S fuel) br_name if_name w = Returns false w'
        /\ calls w'
           = calls w ++ n :: Sys_socket :: c :: release_calls (sock_of kernel w0)
        /\ logs w'
           = logs w ++ [(("Could not add interface " ++ CStr.c_str if_name
                          ++ " into bridge " ++ ifr_name ifr)%string,
                         Some (errno (after kernel (opened kernel w0) c)))])
  /\ (forall fuel br_name if_name (w : World K),
      let n := Sys_if_nametoindex (CStr.c_str if_name) in
      let w0 := after kernel w n in
      let ifr := {| ifr_name := CStr.take 15 (CStr.c_str br_name);
                    ifr_ifindex := Mem.to_int (ret (reply kernel w n)) |} in
      let c := Sys_ioctl (sock_of kernel w0) SIOCBRDELIF (ArgIfreq ifr) in
      ifr_ifindex ifr <> 0 ->
      sock_of kernel w0 < 0 ->
      ~ interrupted kernel (opened kernel w0) c ->
      ret (reply kernel (opened kernel w0) c) <> 0 ->
      exists w',
        removeIfaceFromBridge kernel (S fuel) br_name if_name w = Returns false w'
        /\ calls w'
           = calls w ++ n :: Sys_socket :: c :: release_calls (sock_of kernel w0)
        /\ logs w'
           = logs w ++ [(("Could not remove interface " ++ CStr.c_str if_name
                          ++ " from bridge " ++ ifr_name ifr)%string,
                         Some (errno (after kernel (opened kernel w0) c)))]).
Proof.
  repeat match goal with |- _ /\ _ => split end.
  - intros stack bridges w H. eexists. split; [|split].
    + now apply GetBridges_no_socket.
    + trace.
    + rewrite released_keeps_logs. reflexivity.
  - intros stack name0 br_name interfaces w H. eexists. split; [|split].
    + now apply GetInterfacesInBridge_no_socket.
    + trace.
    + rewrite released_keeps_logs. reflexivity.
  - intros fuel br_name w c _ NI Hr. eexists. split; [|split].
    + change (S fuel) with (1 + fuel)%nat.
      rewrite (createBridge_run K kernel fuel 0 br_name w (uninterrupted_once _ _ NI)).
      unfold verdict. simpl reissued. fold c.
      apply Z.eqb_neq in Hr. rewrite Hr. reflexivity.
    + trace.
    + rewrite released_keeps_logs. reflexivity.
  - intros fuel br_name w c _ NI Hr. eexists. split; [|split].
    + change (S fuel) with (1 + fuel)%nat.
      rewrite (deleteBridge_run K kernel fuel 0 br_name w (uninterrupted_once _ _ NI)).
      unfold verdict. simpl reissued. fold c.
      apply Z.eqb_neq in Hr. rewrite Hr. reflexivity.
    + trace.
    + rewrite released_keeps_logs. reflexivity.
  - intros fuel br_name if_name w n w0 ifr c Hi _ NI Hr. eexists. split; [|split].
    + change (S fuel) with (1 + fuel)%nat.
      rewrite (addIfaceToBridge_run K kernel fuel 0 br_name if_name w Hi
                 (uninterrupted_once _ _ NI)).
      unfold verdict. simpl reissued. fold n w0 ifr c.
      apply Z.eqb_neq in Hr. rewrite Hr. reflexivity.
    + trace.
    + rewrite released_keeps_logs. reflexivity.
  - intros fuel br_name if_name w n w0 ifr c Hi _ NI Hr. eexists. split; [|split].
    + change (S fuel) with (1 + fuel)%nat.
      rewrite (removeIfaceFromBridge_run K kernel fuel 0 br_name if_name w Hi
                 (uninterrupted_once _ _ NI)).
      unfold verdict. simpl reissued. fold n w0 ifr c.
      apply Z.eqb_neq in Hr. rewrite Hr. reflexivity.
    + trace.
    + rewrite released_keeps_logs. reflexivity.
Qed.

(** C3.  When the lookup of the interface name yields index zero, both
    [addIfaceToBridge] and [removeIfaceFromBridge] return [false] at once,
    for every bridge name: the lookup is the only call they make, so no
    bridge-add-interface or bridge-delete-interface request is issued. *)
Theorem unresolved_interface_fails_at_once :
  forall fuel br_name if_name (w : World K),
    let n := Sys_if_nametoindex (CStr.c_str if_name) in
    ret (reply kernel w n) = 0 ->
    (exists w',
        addIfaceToBridge kernel fuel br_name if_name w = Returns false w'
        /\ calls w' = calls w ++ [n])
    /\ (exists w',
        removeIfaceFromBridge kernel fuel br_name if_name w = Returns false w'
        /\ calls w' = calls w ++ [n]).
Proof.
  intros fuel br_name if_name w n H.
  assert (Z0 : Mem.to_int (ret (reply kernel w n)) = 0) by (rewrite H; reflexivity).
  split; eexists; split.
  - now apply addIfaceToBridge_unresolved.
  - reflexivity.
  - now apply removeIfaceFromBridge_unresolved.
  - reflexivity.
Qed.

End Handles.

(** ** What the enumerations return *)

Section Enumerating.

Variable K : Type.
Variable kernel : K -> Syscall -> Reply * K.

(** Resolving names only adds calls that are not ioctl requests. *)
Lemma resolve_all_calls vs : forall (w : World K),
  exists rest,
    calls (snd (resolve_all kernel w vs)) = calls w ++ rest
    /\ count_ioctls rest = 0%nat.
Proof.
  induction vs as [|v vs IH]; intros w; simpl.
  - exists []. split; [now rewrite app_nil_r | reflexivity].
  - destruct (v =? 0); [apply IH|].
    destruct (IH (after kernel w (Sys_if_indextoname (Mem.to_unsigned v))))
      as [rest [E C]].
    exists (Sys_if_indextoname (Mem.to_unsigned v) :: rest).
    split.
    + destruct (wr_name _); simpl; rewrite E, calls_after, <- app_assoc; reflexivity.
    + exact C.
Qed.

(** C4.  In both enumerations the vector handed back holds, after what it
    held before, exactly the names of the scanned slots that are non-zero
    and resolve, in the order of the slots; zero slots and slots that do
    not resolve are passed over and the operation still returns [true].
    The scanned slots are the first [num] ones in [GetBridges] ([num] the
    count the kernel returned) and all [MAX_PORTS] in
    [GetInterfacesInBridge]. *)
Theorem enumeration_keeps_resolved_names_in_order :
  (forall stack bridges (w : World K),
      let c := get_bridges_call kernel w in
      let r := reply kernel (opened kernel w) c in
      let w2 := after kernel (opened kernel w) c in
      0 <= sock_of kernel w ->
      ret r <= MAX_PORTS ->
      exists vs w',
        Mem.slots_from (ifindices_after stack r) 0 (Z.to_nat (ret r)) = Some vs
        /\ GetBridges kernel stack bridges w
           = Returns (true, bridges ++ fst (resolve_all kernel w2 vs)) w'
        /\ (forall name_of, stable_names kernel name_of ->
              fst (resolve_all kernel w2 vs) = resolved_names name_of vs))
  /\ (forall stack name0 br_name interfaces (w : World K),
      let c := get_ports_call kernel w name0 br_name in
      let r := reply kernel (opened kernel w) c in
      let w2 := after kernel (opened kernel w) c in
      0 <= sock_of kernel w ->
      0 <= ret r ->
      exists vs w',
        Mem.slots_from (ifindices_after stack r) 0 (Z.to_nat MAX_PORTS) = Some vs
        /\ GetInterfacesInBridge kernel stack name0 br_name interfaces w
           = Returns (true, interfaces ++ fst (resolve_all kernel w2 vs)) w'
        /\ (forall name_of, stable_names kernel name_of ->
              fst (resolve_all kernel w2 vs) = resolved_names name_of vs)).
Proof.
  split.
  - intros stack bridges w c r w2 Hs Hn.
    destruct (GetBridges_run K kernel stack bridges w Hs Hn) as [vs [Hvs Run]].
    exists vs. eexists. split; [exact Hvs|]. split; [exact Run|].
    intros name_of St. now apply resolve_all_stable.
  - intros stack name0 br_name interfaces w c r w2 Hs Hr.
    destruct (GetInterfacesInBridge_run K kernel stack name0 br_name interfaces w Hs Hr)
      as [vs [Hvs Run]].
    exists vs. eexists. split; [exact Hvs|]. split; [exact Run|].
    intros name_of St. now apply resolve_all_stable.
Qed.


(** C6.  Once the descriptor is obtained, [GetInterfacesInBridge] returns
    [false] exactly when the SIOCDEVPRIVATE get-port-list request returns
    a negative value, and then the caller's vector is handed back as it
    was. *)
Theorem GetInterfacesInBridge_fails_iff_request_fails :
  forall stack name0 br_name interfaces (w : World K),
    let c := get_ports_call kernel w name0 br_name in
    0 <= sock_of kernel w ->
    exists b interfaces' w',
      GetInterfacesInBridge kernel stack name0 br_name interfaces w
      = Returns (b, interfaces') w'
      /\ (b = false <-> ret (reply kernel (opened kernel w) c) < 0)
      /\ (b = false -> interfaces' = interfaces).
Proof.
  intros stack name0 br_name interfaces w c Hs.
  destruct (Z_lt_le_dec (ret (reply kernel (opened kernel w) c)) 0) as [Hr|Hr].
  - exists false, interfaces. eexists. split; [|split].
    + now apply GetInterfacesInBridge_failed.
    + tauto.
    + reflexivity.
  - destruct (GetInterfacesInBridge_run K kernel stack name0 br_name interfaces w Hs Hr)
      as [vs [_ Run]].
    exists true. eexists. eexists. split; [exact Run|]. split.
    + split; [discriminate | fold c; lia].
    + discriminate.
Qed.

(** C9.  Once the descriptor is obtained, [GetBridges] returns [true]
    whatever the SIOCGIFBR request returns (the kernel reporting no more
    than the capacity); when the request returns a negative count the loop
    body never runs and the caller's vector is handed back as it was. *)
Theorem GetBridges_ignores_request_failure :
  forall stack bridges (w : World K),
    let c := get_bridges_call kernel w in
    0 <= sock_of kernel w ->
    ret (reply kernel (opened kernel w) c) <= MAX_PORTS ->
    exists bridges' w',
      GetBridges kernel stack bridges w = Returns (true, bridges') w'
      /\ (ret (reply kernel (opened kernel w) c) < 0 -> bridges' = bridges).
Proof.
  intros stack bridges w c Hs Hn.
  destruct (GetBridges_run K kernel stack bridges w Hs Hn) as [vs [Hvs Run]].
  eexists. eexists. split; [exact Run|].
  intros Neg. fold c in Hvs.
  replace (Z.to_nat (ret (reply kernel (opened kernel w) c))) with 0%nat in Hvs by lia.
  simpl in Hvs. injection Hvs as <-. simpl. now rewrite app_nil_r.
Qed.

(** C10.  Neither enumeration clears the vector it is given: what the
    caller's vector held stays in front, unchanged, and the names found
    come after it. *)
Theorem enumerations_append_to_the_vector :
  (forall stack bridges (w : World K),
      let c := get_bridges_call kernel w in
      (0 <= sock_of kernel w -> ret (reply kernel (opened kernel w) c) <= MAX_PORTS) ->
      exists b names w',
        GetBridges kernel stack bridges w = Returns (b, bridges ++ names) w')
  /\ (forall stack name0 br_name interfaces (w : World K),
      exists b names w',
        GetInterfacesInBridge kernel stack name0 br_name interfaces w
        = Returns (b, interfaces ++ names) w').
Proof.
  split.
  - intros stack bridges w c H.
    destruct (Z_lt_le_dec (sock_of kernel w) 0) as [Hs|Hs].
    + exists false, []. eexists. rewrite app_nil_r.
      now apply GetBridges_no_socket.
    + destruct (GetBridges_run K kernel stack bridges w Hs (H Hs)) as [vs [_ Run]].
      exists true. eexists. eexists. exact Run.
  - intros stack name0 br_name interfaces w.
    destruct (Z_lt_le_dec (sock_of kernel w) 0) as [Hs|Hs].
    + exists false, []. eexists. rewrite app_nil_r.
      now apply GetInterfacesInBridge_no_socket.
    + destruct (Z_lt_le_dec
                  (ret (reply kernel (opened kernel w)
                          (get_ports_call kernel w name0 br_name))) 0) as [Hr|Hr].
      * exists false, []. eexists. rewrite app_nil_r.
        now apply GetInterfacesInBridge_failed.
      * destruct (GetInterfacesInBridge_run K kernel stack name0 br_name interfaces w Hs Hr)
          as [vs [_ Run]].
        exists true. eexists. eexists. exact Run.
Qed.

End Enumerating.

(** ** Names that do not fit, and requests that are interrupted *)

Section Requests.

Variable K : Type.
Variable kernel : K -> Syscall -> Reply * K.

Lemma count_ioctls_repeat c k :
  is_ioctl c = true -> count_ioctls (repeat c k) = k.
Proof.
  intros H. unfold count_ioctls.
  induction k as [|k IH]; simpl; [reflexivity|]. rewrite H. simpl. now rewrite IH.
Qed.

Lemma count_ioctls_settled (w : World K) c k :
  is_ioctl c = true ->
  count_ioctls (calls (settled kernel w c k)) = (count_ioctls (calls w) + S k)%nat.
Proof.
  intros H. now rewrite calls_settled, count_ioctls_app, count_ioctls_repeat.
Qed.

Lemma count_ioctls_other (w : World K) c :
  is_ioctl c = false ->
  count_ioctls (calls (after kernel w c)) = count_ioctls (calls w).
Proof.
  intros H. rewrite calls_after, count_ioctls_app.
  unfold count_ioctls at 2. simpl. rewrite H. simpl. lia.
Qed.

Lemma count_ioctls_opened (w : World K) :
  count_ioctls (calls (opened kernel w)) = count_ioctls (calls w).
Proof. now apply count_ioctls_other. Qed.

Lemma count_ioctls_released (w : World K) fd :
  count_ioctls (calls (released kernel w fd)) = count_ioctls (calls w).
Proof.
  rewrite calls_released, count_ioctls_app, count_ioctls_release. lia.
Qed.

Lemma count_ioctls_one (w : World K) c :
  is_ioctl c = true ->
  count_ioctls (calls (after kernel w c)) = (count_ioctls (calls w) + 1)%nat.
Proof.
  intros H. rewrite calls_after, count_ioctls_app.
  unfold count_ioctls at 2. simpl. rewrite H. reflexivity.
Qed.

(** The bridge name that reaches the kernel in a 16-byte name field. *)
Lemma long_name_cut br_name :
  (15 < String.length (CStr.c_str br_name))%nat ->
  String.length (CStr.take 15 (CStr.c_str br_name)) = 15%nat.
Proof.
  intros H. rewrite CStrFacts.take_length. lia.
Qed.

(** C7.  The three operations that copy the bridge name into a 16-byte
    name field ([addIfaceToBridge], [removeIfaceFromBridge],
    [GetInterfacesInBridge]) do not reject a name of more than 15
    characters: the request they issue carries its first 15 characters,
    and the operation goes on to return what the kernel answers to that
    request. *)
Theorem long_bridge_name_is_truncated :
  forall br_name,
    (15 < String.length (CStr.c_str br_name))%nat ->
    let short := CStr.take 15 (CStr.c_str br_name) in
    (String.length short = 15%nat
     /\ exists rest, CStr.c_str br_name = (short ++ rest)%string)
    /\ (forall fuel if_name (w : World K),
        let n := Sys_if_nametoindex (CStr.c_str if_name) in
        let w0 := after kernel w n in
        let ifr := {| ifr_name := short;
                      ifr_ifindex := Mem.to_int (ret (reply kernel w n)) |} in
        let c := Sys_ioctl (sock_of kernel w0) SIOCBRADDIF (ArgIfreq ifr) in
        ifr_ifindex ifr <> 0 ->
        ~ interrupted kernel (opened kernel w0) c ->
        exists w',
          addIfaceToBridge kernel (S fuel) br_name if_name w
          = Returns (ret (reply kernel (opened kernel w0) c) =? 0) w'
          /\ calls w'
             = calls w ++ n :: Sys_socket :: c :: release_calls (sock_of kernel w0))
    /\ (forall fuel if_name (w : World K),
        let n := Sys_if_nametoindex (CStr.c_str if_name) in
        let w0 := after kernel w n in
        let ifr := {| ifr_name := short;
                      ifr_ifindex := Mem.to_int (ret (reply kernel w n)) |} in
        let c := Sys_ioctl (sock_of kernel w0) SIOCBRDELIF (ArgIfreq ifr) in
        ifr_ifindex ifr <> 0 ->
        ~ interrupted kernel (opened kernel w0) c ->
        exists w',
          removeIfaceFromBridge kernel (S fuel) br_name if_name w
          = Returns (ret (reply kernel (opened kernel w0) c) =? 0) w'
          /\ calls w'
             = calls w ++ n :: Sys_socket :: c :: release_calls (sock_of kernel w0))
    /\ (forall stack name0 interfaces (w : World K),
        let c := Sys_ioctl (sock_of kernel w) SIOCDEVPRIVATE
                   (ArgIfreqBrctl short BRCTL_GET_PORT_LIST MAX_PORTS) in
        0 <= sock_of kernel w ->
        exists b interfaces' w' rest,
          GetInterfacesInBridge kernel stack name0 br_name interfaces w
          = Returns (b, interfaces') w'
          /\ (b = true <-> 0 <= ret (reply kernel (opened kernel w) c))
          /\ calls w' = calls w ++ Sys_socket :: c :: rest).
Proof.
  intros br_name Long short. split; [|split; [|split]].
  - split; [now apply long_name_cut | apply CStrFacts.take_prefix].
  - intros fuel if_name w n w0 ifr c Hi NI.
    eexists. split.
    + change (S fuel) with (1 + fuel)%nat.
      rewrite (addIfaceToBridge_run K kernel fuel 0 br_name if_name w Hi
                 (uninterrupted_once _ _ _ _ NI)).
      reflexivity.
    + repeat match goal with x := _ |- _ => subst x end.
      rewrite calls_released.
      destruct (verdict _ _ _ _ =? 0);
        rewrite ?calls_logged, calls_settled; unfold opened;
        rewrite !calls_after, <- !app_assoc; reflexivity.
  - intros fuel if_name w n w0 ifr c Hi NI.
    eexists. split.
    + change (S fuel) with (1 + fuel)%nat.
      rewrite (removeIfaceFromBridge_run K kernel fuel 0 br_name if_name w Hi
                 (uninterrupted_once _ _ _ _ NI)).
      reflexivity.
    + repeat match goal with x := _ |- _ => subst x end.
      rewrite calls_released.
      destruct (verdict _ _ _ _ =? 0);
        rewrite ?calls_logged, calls_settled; unfold opened;
        rewrite !calls_after, <- !app_assoc; reflexivity.
  - intros stack name0 interfaces w c Hs.
    change c with (get_ports_call kernel w name0 br_name) in *. clear c.
    set (c := get_ports_call kernel w name0 br_name) in *.
    destruct (Z_lt_le_dec (ret (reply kernel (opened kernel w) c)) 0) as [Hr|Hr].
    + exists false, interfaces. eexists. eexists. split; [|split].
      * now apply GetInterfacesInBridge_failed.
      * split; [discriminate | lia].
      * rewrite calls_released, calls_logged. unfold opened.
        rewrite !calls_after, <- !app_assoc. reflexivity.
    + destruct (GetInterfacesInBridge_run K kernel stack name0 br_name interfaces w Hs Hr)
        as [vs [_ Run]].
      destruct (resolve_all_calls K kernel vs (after kernel (opened kernel w) c))
        as [rest [E _]].
      exists true. eexists. eexists. eexists. split; [exact Run|]. split.
      * tauto.
      * rewrite calls_released. fold c. rewrite E. unfold opened.
        rewrite !calls_after, <- !app_assoc. reflexivity.
Qed.

(** [createBridge] and [deleteBridge] have no name field of their own to
    fill: they hand the kernel the caller's whole C string. *)
Lemma createBridge_passes_whole_name fuel br_name (w : World K) :
  let c := Sys_ioctl (sock_of kernel w) SIOCBRADDBR (ArgName (CStr.c_str br_name)) in
  ~ interrupted kernel (opened kernel w) c ->
  exists w',
    createBridge kernel (S fuel) br_name w
    = Returns (ret (reply kernel (opened kernel w) c) =? 0) w'
    /\ calls w' = calls w ++ Sys_socket :: c :: release_calls (sock_of kernel w).
Proof.
  intros c NI. eexists. split.
  - change (S fuel) with (1 + fuel)%nat.
    rewrite (createBridge_run K kernel fuel 0 br_name w (uninterrupted_once _ _ _ _ NI)).
    reflexivity.
  - subst c. rewrite calls_released.
    destruct (verdict _ _ _ _ =? 0);
      rewrite ?calls_logged, calls_settled; unfold opened;
      rewrite !calls_after, <- !app_assoc; reflexivity.
Qed.

(** C8, as the program has it.  The four mutating operations wrap their
    request in [TEMP_FAILURE_RETRY]: a request that is interrupted [k]
    times (returns -1 with [errno] [EINTR]) is issued [k + 1] times, and
    the operation reports the outcome of the last attempt; with [k = 0],
    any other failure is reported after the single attempt.  The two
    enumerations issue their request exactly once whatever it returns. *)
Theorem requests_reissued_only_on_EINTR :
  (forall fuel k br_name (w : World K),
      let c := Sys_ioctl (sock_of kernel w) SIOCBRADDBR (ArgName (CStr.c_str br_name)) in
      interrupted_times kernel (opened kernel w) c k ->
      exists w',
        createBridge kernel (S k + fuel) br_name w
        = Returns (verdict kernel (opened kernel w) c k =? 0) w'
        /\ count_ioctls (calls w') = (count_ioctls (calls w) + S k)%nat)
  /\ (forall fuel k br_name (w : World K),
      let c := Sys_ioctl (sock_of kernel w) SIOCBRDELBR (ArgName (CStr.c_str br_name)) in
      interrupted_times kernel (opened kernel w) c k ->
      exists w',
        deleteBridge kernel (S k + fuel) br_name w
        = Returns (verdict kernel (opened kernel w) c k =? 0) w'
        /\ count_ioctls (calls w') = (count_ioctls (calls w) + S k)%nat)
  /\ (forall fuel k br_name if_name (w : World K),
      let n := Sys_if_nametoindex (CStr.c_str if_name) in
      let w0 := after kernel w n in
      let ifr := {| ifr_name := CStr.take 15 (CStr.c_str br_name);
                    ifr_ifindex := Mem.to_int (ret (reply kernel w n)) |} in
      let c := Sys_ioctl (sock_of kernel w0) SIOCBRADDIF (ArgIfreq ifr) in
      ifr_ifindex ifr <> 0 ->
      interrupted_times kernel (opened kernel w0) c k ->
      exists w',
        addIfaceToBridge kernel (S k + fuel) br_name if_name w
        = Returns (verdict kernel (opened kernel w0) c k =? 0) w'
        /\ count_ioctls (calls w') = (count_ioctls (calls w) + S k)%nat)
  /\ (forall fuel k br_name if_name (w : World K),
      let n := Sys_if_nametoindex (CStr.c_str if_name) in
      let w0 := after kernel w n in
      let ifr := {| ifr_name := CStr.take 15 (CStr.c_str br_name);
                    ifr_ifindex := Mem.to_int (ret (reply kernel w n)) |} in
      let c := Sys_ioctl (sock_of kernel w0) SIOCBRDELIF (ArgIfreq ifr) in
      ifr_ifindex ifr <> 0 ->
      interrupted_times kernel (opened kernel w0) c k ->
      exists w',
        removeIfaceFromBridge kernel (S k + fuel) br_name if_name w
        = Returns (verdict kernel (opened kernel w0) c k =? 0) w'
        /\ count_ioctls (calls w') = (count_ioctls (calls w) + S k)%nat)
  /\ (forall stack bridges (w : World K),
      let c := get_bridges_call kernel w in
      0 <= sock_of kernel w ->
      ret (reply kernel (opened kernel w) c) <= MAX_PORTS ->
      exists bridges' w',
        GetBridges kernel stack bridges w = Returns (true, bridges') w'
        /\ count_ioctls (calls w') = (count_ioctls (calls w) + 1)%nat)
  /\ (forall stack name0 br_name interfaces (w : World K),
      let c := get_ports_call kernel w name0 br_name in
      0 <= sock_of kernel w ->
      exists b interfaces' w',
        GetInterfacesInBridge kernel stack name0 br_name interfaces w
        = Returns (b, interfaces') w'
        /\ (b = false <-> ret (reply kernel (opened kernel w) c) < 0)
        /\ count_ioctls (calls w') = (count_ioctls (calls w) + 1)%nat).
Proof.
  repeat match goal with |- _ /\ _ => split end.
  - intros fuel k br_name w c H. eexists. split.
    + now apply createBridge_run.
    + rewrite count_ioctls_released.
      destruct (verdict _ _ _ _ =? 0);
        rewrite ?calls_logged, count_ioctls_settled, ?count_ioctls_opened by reflexivity;
        reflexivity.
  - intros fuel k br_name w c H. eexists. split.
    + now apply deleteBridge_run.
    + rewrite count_ioctls_released.
      destruct (verdict _ _ _ _ =? 0);
        rewrite ?calls_logged, count_ioctls_settled, ?count_ioctls_opened by reflexivity;
        reflexivity.
  - intros fuel k br_name if_name w n w0 ifr c Hi H. eexists. split.
    + now apply addIfaceToBridge_run.
    + rewrite count_ioctls_released.
      destruct (verdict _ _ _ _ =? 0);
        rewrite ?calls_logged, count_ioctls_settled, ?count_ioctls_opened by reflexivity;
        unfold w0; rewrite count_ioctls_other by reflexivity; reflexivity.
  - intros fuel k br_name if_name w n w0 ifr c Hi H. eexists. split.
    + now apply removeIfaceFromBridge_run.
    + rewrite count_ioctls_released.
      destruct (verdict _ _ _ _ =? 0);
        rewrite ?calls_logged, count_ioctls_settled, ?count_ioctls_opened by reflexivity;
        unfold w0; rewrite count_ioctls_other by reflexivity; reflexivity.
  - intros stack bridges w c Hs Hn.
    destruct (GetBridges_run K kernel stack bridges w Hs Hn) as [vs [_ Run]].
    eexists. eexists. split; [exact Run|].
    rewrite count_ioctls_released, resolve_all_ioctls.
    rewrite count_ioctls_one by reflexivity. now rewrite count_ioctls_opened.
  - intros stack name0 br_name interfaces w c Hs.
    destruct (Z_lt_le_dec (ret (reply kernel (opened kernel w) c)) 0) as [Hr|Hr].
    + exists false, interfaces. eexists. split; [|split].
      * now apply GetInterfacesInBridge_failed.
      * tauto.
      * rewrite count_ioctls_released, calls_logged.
        rewrite count_ioctls_one by reflexivity. now rewrite count_ioctls_opened.
    + destruct (GetInterfacesInBridge_run K kernel stack name0 br_name interfaces w Hs Hr)
        as [vs [_ Run]].
      exists true. eexists. eexists. split; [exact Run|]. split.
      * split; [discriminate | fold c; lia].
      * rewrite count_ioctls_released, resolve_all_ioctls.
        rewrite count_ioctls_one by reflexivity. now rewrite count_ioctls_opened.
Qed.

End Requests.

(** * Concrete runs on the simulated kernel *)

Section ConcreteRuns.

Local Open Scope string_scope.
Local Open Scope list_scope.

(** Discharge a side condition about the simulated kernel by running it. *)
Ltac run := vm_compute; first [reflexivity | discriminate | lia].

Ltac not_interrupted := unfold interrupted; vm_compute; lia.

(** Against C2 as stated: on the machine out of descriptors [socket]
    returns -1, and [createBridge] still issues its request, on descriptor
    -1, before it returns [false].  So it is not the case that it returns
    with no ioctl request made. *)
Lemma createBridge_requests_on_failed_handle :
  sock_of Sim.step (Sim.boot Sim.exhausted) < 0
  /\ createBridge Sim.step 1 "br0" (Sim.boot Sim.exhausted)
     = Returns false
         {| kstate := Sim.exhausted;
            calls := [Sys_socket; Sys_ioctl (-1) SIOCBRADDBR (ArgName "br0")];
            logs := [("Could not add bridge br0", Some EBADF)];
            errno := EBADF |}
  /\ ~ (exists w',
          createBridge Sim.step 1 "br0" (Sim.boot Sim.exhausted) = Returns false w'
          /\ count_ioctls (calls w') = 0%nat).
Proof.
  assert (E : createBridge Sim.step 1 "br0" (Sim.boot Sim.exhausted)
              = Returns false
                  {| kstate := Sim.exhausted;
                     calls := [Sys_socket; Sys_ioctl (-1) SIOCBRADDBR (ArgName "br0")];
                     logs := [("Could not add bridge br0", Some EBADF)];
                     errno := EBADF |})
    by (vm_compute; reflexivity).
  split; [vm_compute; reflexivity|]. split; [exact E|].
  intros [w' [R C]]. rewrite E in R. injection R as <-.
  vm_compute in C. discriminate C.
Qed.

(** Against C8 as stated: with a signal pending, the first SIOCBRADDBR
    request fails with [EINTR]; [createBridge] does not report that failure
    but issues the request a second time and returns [true].  So it is not
    the case that the failure is reported after a single attempt. *)
Lemma createBridge_reissues_interrupted_request :
  interrupted Sim.step (opened Sim.step (Sim.boot Sim.signalled))
    (Sys_ioctl 3 SIOCBRADDBR (ArgName "br0"))
  /\ createBridge Sim.step 2 "br0" (Sim.boot Sim.signalled)
     = Returns true
         {| kstate := Sim.machine;
            calls := [Sys_socket;
                      Sys_ioctl 3 SIOCBRADDBR (ArgName "br0");
                      Sys_ioctl 3 SIOCBRADDBR (ArgName "br0");
                      Sys_close 3];
            logs := [];
            errno := EINTR |}
  /\ ~ (exists w',
          createBridge Sim.step 2 "br0" (Sim.boot Sim.signalled) = Returns false w'
          /\ count_ioctls (calls w') = 1%nat).
Proof.
  assert (E : createBridge Sim.step 2 "br0" (Sim.boot Sim.signalled)
              = Returns true
                  {| kstate := Sim.machine;
                     calls := [Sys_socket;
                               Sys_ioctl 3 SIOCBRADDBR (ArgName "br0");
                               Sys_ioctl 3 SIOCBRADDBR (ArgName "br0");
                               Sys_close 3];
                     logs := [];
                     errno := EINTR |})
    by (vm_compute; reflexivity).
  split; [split; vm_compute; reflexivity|]. split; [exact E|].
  intros [w' [R _]]. rewrite E in R. discriminate R.
Qed.

(** What the enumerations return on the machine at rest. *)
Example GetBridges_machine :
  GetBridges Sim.step Sim.dirty_stack ["x"] (Sim.boot Sim.machine)
  = Returns (true, ["x"; "br0"; "br1"])
      {| kstate := Sim.machine;
         calls := [Sys_socket;
                   Sys_ioctl 3 SIOCGIFBR (ArgBrctl BRCTL_GET_BRIDGES 1024);
                   Sys_if_indextoname 10; Sys_if_indextoname 11;
                   Sys_close 3];
         logs := []; errno := 0 |}.
Proof. vm_compute. reflexivity. Qed.

Example GetInterfacesInBridge_machine :
  GetInterfacesInBridge Sim.step Sim.dirty_stack EmptyString "br0" ["x"] (Sim.boot Sim.machine)
  = Returns (true, ["x"; "eth0"; "wlan0"])
      {| kstate := Sim.machine;
         calls := [Sys_socket;
                   Sys_ioctl 3 SIOCDEVPRIVATE
                     (ArgIfreqBrctl "br0" BRCTL_GET_PORT_LIST 1024);
                   Sys_if_indextoname 2; Sys_if_indextoname 3;
                   Sys_close 3];
         logs := []; errno := 0 |}.
Proof. vm_compute. reflexivity. Qed.

Example GetBridges_crowded :
  match GetBridges Sim.step Sim.clean_stack [] (Sim.boot Sim.crowded) with
  | Returns (b, bridges) w' =>
      b = true /\ List.length bridges = 1024%nat
      /\ List.length (Sim.bridge_table Sim.crowded) = 1030%nat
  | _ => False
  end.
Proof. vm_compute. repeat split; reflexivity. Qed.

(** C2 on the machine out of descriptors. *)
Lemma handle_failure_by_operation_witness :
  (exists w',
      GetBridges Sim.step Sim.dirty_stack ["x"] (Sim.boot Sim.exhausted)
      = Returns (false, ["x"]) w'
      /\ calls w' = [Sys_socket]
      /\ logs w' = [("Failed to open socket to get bridge interfaces", Some EMFILE)])
  /\ (exists w',
      GetInterfacesInBridge Sim.step Sim.dirty_stack EmptyString "br0" ["x"]
        (Sim.boot Sim.exhausted)
      = Returns (false, ["x"]) w'
      /\ calls w' = [Sys_socket]
      /\ logs w' = [("Failed to open socket to get bridge interfaces", Some EMFILE)])
  /\ (exists w',
      createBridge Sim.step 1 "br0" (Sim.boot Sim.exhausted) = Returns false w'
      /\ calls w' = [Sys_socket; Sys_ioctl (-1) SIOCBRADDBR (ArgName "br0")]
      /\ logs w' = [("Could not add bridge br0", Some EBADF)])
  /\ (exists w',
      deleteBridge Sim.step 1 "br0" (Sim.boot Sim.exhausted) = Returns false w'
      /\ calls w' = [Sys_socket; Sys_ioctl (-1) SIOCBRDELBR (ArgName "br0")]
      /\ logs w' = [("Could not remove bridge br0", Some EBADF)])
  /\ (exists w',
      addIfaceToBridge Sim.step 1 "br0" "eth0" (Sim.boot Sim.exhausted)
      = Returns false w'
      /\ calls w' = [Sys_if_nametoindex "eth0"; Sys_socket;
                     Sys_ioctl (-1) SIOCBRADDIF
                       (ArgIfreq {| ifr_name := "br0"; ifr_ifindex := 2 |})]
      /\ logs w' = [("Could not add interface eth0 into bridge br0", Some EBADF)])
  /\ (exists w',
      removeIfaceFromBridge Sim.step 1 "br0" "eth0" (Sim.boot Sim.exhausted)
      = Returns false w'
      /\ calls w' = [Sys_if_nametoindex "eth0"; Sys_socket;
                     Sys_ioctl (-1) SIOCBRDELIF
                       (ArgIfreq {| ifr_name := "br0"; ifr_ifindex := 2 |})]
      /\ logs w' = [("Could not remove interface eth0 from bridge br0", Some EBADF)]).
Proof.
  destruct (handle_failure_by_operation Sim.state Sim.step)
    as (HB & HI & HC & HD & HA & HR).
  repeat match goal with |- _ /\ _ => split end.
  - apply (HB Sim.dirty_stack ["x"] (Sim.boot Sim.exhausted)). run.
  - apply (HI Sim.dirty_stack EmptyString "br0" ["x"] (Sim.boot Sim.exhausted)). run.
  - apply (HC 0%nat "br0" (Sim.boot Sim.exhausted)); [run | not_interrupted | run].
  - apply (HD 0%nat "br0" (Sim.boot Sim.exhausted)); [run | not_interrupted | run].
  - apply (HA 0%nat "br0" "eth0" (Sim.boot Sim.exhausted));
      [run | run | not_interrupted | run].
  - apply (HR 0%nat "br0" "eth0" (Sim.boot Sim.exhausted));
      [run | run | not_interrupted | run].
Defined.

(** C3 for [eth7], which the machine does not have. *)
Lemma unresolved_interface_fails_at_once_witness :
  (exists w',
      addIfaceToBridge Sim.step 1 "br0" "eth7" (Sim.boot Sim.machine)
      = Returns false w'
      /\ calls w' = [Sys_if_nametoindex "eth7"])
  /\ (exists w',
      removeIfaceFromBridge Sim.step 1 "br0" "eth7" (Sim.boot Sim.machine)
      = Returns false w'
      /\ calls w' = [Sys_if_nametoindex "eth7"]).
Proof.
  apply (unresolved_interface_fails_at_once Sim.state Sim.step
           1%nat "br0" "eth7" (Sim.boot Sim.machine)).
  run.
Defined.

(** C4 on the machine at rest, over a stack of [0xFF] bytes. *)
Lemma enumeration_keeps_resolved_names_in_order_witness :
  (let w := Sim.boot Sim.machine in
   let c := get_bridges_call Sim.step w in
   let r := reply Sim.step (opened Sim.step w) c in
   let w2 := after Sim.step (opened Sim.step w) c in
   exists vs w',
     Mem.slots_from (ifindices_after Sim.dirty_stack r) 0 (Z.to_nat (ret r)) = Some vs
     /\ GetBridges Sim.step Sim.dirty_stack ["x"] w
        = Returns (true, ["x"] ++ fst (resolve_all Sim.step w2 vs)) w'
     /\ (forall name_of, stable_names Sim.step name_of ->
           fst (resolve_all Sim.step w2 vs) = resolved_names name_of vs))
  /\ (let w := Sim.boot Sim.machine in
      let c := get_ports_call Sim.step w EmptyString "br0" in
      let r := reply Sim.step (opened Sim.step w) c in
      let w2 := after Sim.step (opened Sim.step w) c in
      exists vs w',
        Mem.slots_from (ifindices_after Sim.dirty_stack r) 0 (Z.to_nat MAX_PORTS)
        = Some vs
        /\ GetInterfacesInBridge Sim.step Sim.dirty_stack EmptyString "br0" ["x"] w
           = Returns (true, ["x"] ++ fst (resolve_all Sim.step w2 vs)) w'
        /\ (forall name_of, stable_names Sim.step name_of ->
              fst (resolve_all Sim.step w2 vs) = resolved_names name_of vs)).
Proof.
  destruct (enumeration_keeps_resolved_names_in_order Sim.state Sim.step)
    as (HB & HI).
  split.
  - apply (HB Sim.dirty_stack ["x"] (Sim.boot Sim.machine)); run.
  - apply (HI Sim.dirty_stack EmptyString "br0" ["x"] (Sim.boot Sim.machine)); run.
Defined.


(** C6 on the machine whose bridge layer refuses every request. *)
Lemma GetInterfacesInBridge_fails_iff_request_fails_witness :
  exists b interfaces' w',
    GetInterfacesInBridge Sim.step Sim.dirty_stack EmptyString "br0" ["x"]
      (Sim.boot Sim.refusing)
    = Returns (b, interfaces') w'
    /\ (b = false <->
        ret (reply Sim.step (opened Sim.step (Sim.boot Sim.refusing))
               (get_ports_call Sim.step (Sim.boot Sim.refusing) EmptyString "br0")) < 0)
    /\ (b = false -> interfaces' = ["x"]).
Proof.
  apply (GetInterfacesInBridge_fails_iff_request_fails Sim.state Sim.step
           Sim.dirty_stack EmptyString "br0" ["x"] (Sim.boot Sim.refusing)).
  run.
Defined.

(** C9 on the machine whose bridge layer refuses every request. *)
Lemma GetBridges_ignores_request_failure_witness :
  ret (reply Sim.step (opened Sim.step (Sim.boot Sim.refusing))
         (get_bridges_call Sim.step (Sim.boot Sim.refusing))) = -1
  /\ exists bridges' w',
      GetBridges Sim.step Sim.dirty_stack ["x"] (Sim.boot Sim.refusing)
      = Returns (true, bridges') w'
      /\ (ret (reply Sim.step (opened Sim.step (Sim.boot Sim.refusing))
                 (get_bridges_call Sim.step (Sim.boot Sim.refusing))) < 0 ->
          bridges' = ["x"]).
Proof.
  split; [run|].
  apply (GetBridges_ignores_request_failure Sim.state Sim.step
           Sim.dirty_stack ["x"] (Sim.boot Sim.refusing)); run.
Defined.

(** C10 with a vector that already holds two names. *)
Lemma enumerations_append_to_the_vector_witness :
  (exists b names w',
      GetBridges Sim.step Sim.dirty_stack ["x"; "y"] (Sim.boot Sim.machine)
      = Returns (b, ["x"; "y"] ++ names) w')
  /\ (exists b names w',
      GetInterfacesInBridge Sim.step Sim.dirty_stack EmptyString "br0" ["x"; "y"]
        (Sim.boot Sim.machine)
      = Returns (b, ["x"; "y"] ++ names) w').
Proof.
  destruct (enumerations_append_to_the_vector Sim.state Sim.step) as (HB & HI).
  split.
  - apply (HB Sim.dirty_stack ["x"; "y"] (Sim.boot Sim.machine)).
    intros _. run.
  - apply (HI Sim.dirty_stack EmptyString "br0" ["x"; "y"] (Sim.boot Sim.machine)).
Defined.

(** C7 for a bridge name of twenty characters. *)
Lemma long_bridge_name_is_truncated_witness :
  (String.length "br0123456789abc" = 15%nat
   /\ exists rest, "br0123456789abcdefgh" = ("br0123456789abc" ++ rest)%string)
  /\ (exists w',
      addIfaceToBridge Sim.step 1 "br0123456789abcdefgh" "eth0" (Sim.boot Sim.machine)
      = Returns true w'
      /\ calls w' = [Sys_if_nametoindex "eth0"; Sys_socket;
                     Sys_ioctl 3 SIOCBRADDIF
                       (ArgIfreq {| ifr_name := "br0123456789abc"; ifr_ifindex := 2 |});
                     Sys_close 3])
  /\ (exists w',
      removeIfaceFromBridge Sim.step 1 "br0123456789abcdefgh" "eth0"
        (Sim.boot Sim.machine)
      = Returns true w'
      /\ calls w' = [Sys_if_nametoindex "eth0"; Sys_socket;
                     Sys_ioctl 3 SIOCBRDELIF
                       (ArgIfreq {| ifr_name := "br0123456789abc"; ifr_ifindex := 2 |});
                     Sys_close 3])
  /\ (exists b interfaces' w' rest,
      GetInterfacesInBridge Sim.step Sim.dirty_stack EmptyString "br0123456789abcdefgh" []
        (Sim.boot Sim.machine)
      = Returns (b, interfaces') w'
      /\ (b = true <-> 0 <= 1024)
      /\ calls w' = [Sys_socket;
                     Sys_ioctl 3 SIOCDEVPRIVATE
                       (ArgIfreqBrctl "br0123456789abc" BRCTL_GET_PORT_LIST 1024)]
                    ++ rest).
Proof.
  destruct (long_bridge_name_is_truncated Sim.state Sim.step "br0123456789abcdefgh")
    as (HL & HA & HR & HI); [run|].
  repeat match goal with |- _ /\ _ => split end.
  - apply HL.
  - apply HL.
  - apply (HA 0%nat "eth0" (Sim.boot Sim.machine)); [run | not_interrupted].
  - apply (HR 0%nat "eth0" (Sim.boot Sim.machine)); [run | not_interrupted].
  - apply (HI Sim.dirty_stack EmptyString [] (Sim.boot Sim.machine)). run.
Defined.

Ltac interrupted_once :=
  split;
  [ intros j Hj; assert (j = 0)%nat as -> by lia; split; vm_compute; reflexivity
  | not_interrupted ].

Ltac not_interrupted_at_all :=
  split; [ intros j Hj; lia | not_interrupted ].

(** C8: one interruption for three of the mutating operations, a plain
    refusal for the fourth, and an interruption of each enumeration. *)
Lemma requests_reissued_only_on_EINTR_witness :
  (exists w',
      createBridge Sim.step 2 "br0" (Sim.boot Sim.signalled) = Returns true w'
      /\ count_ioctls (calls w') = 2%nat)
  /\ (exists w',
      deleteBridge Sim.step 2 "br0" (Sim.boot Sim.signalled) = Returns true w'
      /\ count_ioctls (calls w') = 2%nat)
  /\ (exists w',
      addIfaceToBridge Sim.step 2 "br0" "eth0" (Sim.boot Sim.signalled)
      = Returns true w'
      /\ count_ioctls (calls w') = 2%nat)
  /\ (exists w',
      removeIfaceFromBridge Sim.step 1 "br0" "eth0" (Sim.boot Sim.refusing)
      = Returns false w'
      /\ count_ioctls (calls w') = 1%nat)
  /\ (exists bridges' w',
      GetBridges Sim.step Sim.dirty_stack [] (Sim.boot Sim.signalled)
      = Returns (true, bridges') w'
      /\ count_ioctls (calls w') = 1%nat)
  /\ (exists b interfaces' w',
      GetInterfacesInBridge Sim.step Sim.dirty_stack EmptyString "br0" []
        (Sim.boot Sim.signalled)
      = Returns (b, interfaces') w'
      /\ (b = false <-> -1 < 0)
      /\ count_ioctls (calls w') = 1%nat).
Proof.
  destruct (requests_reissued_only_on_EINTR Sim.state Sim.step)
    as (HC & HD & HA & HR & HB & HI).
  repeat match goal with |- _ /\ _ => split end.
  - apply (HC 0%nat 1%nat "br0" (Sim.boot Sim.signalled)). interrupted_once.
  - apply (HD 0%nat 1%nat "br0" (Sim.boot Sim.signalled)). interrupted_once.
  - apply (HA 0%nat 1%nat "br0" "eth0" (Sim.boot Sim.signalled));
      [run | interrupted_once].
  - apply (HR 0%nat 0%nat "br0" "eth0" (Sim.boot Sim.refusing));
      [run | not_interrupted_at_all].
  - apply (HB Sim.dirty_stack [] (Sim.boot Sim.signalled)); run.
  - apply (HI Sim.dirty_stack EmptyString "br0" [] (Sim.boot Sim.signalled)). run.
Defined.

End ConcreteRuns.

(** * Further properties of the operations *)

(** ** Reading back what was written into an array *)

Module MemRoundTrip.
Import Mem.

Lemma bytes_value v :
  let u := to_unsigned v in
  u mod 256 + 256 * ((u / 256) mod 256) + 65536 * ((u / 65536) mod 256)
  + 16777216 * ((u / 16777216) mod 256) = u.
Proof.
  intros u.
  assert (R : 0 <= u < 4294967296) by (apply Z.mod_pos_bound; lia).
  Z.div_mod_to_equations. lia.
Qed.

Lemma to_int_to_unsigned v : to_int (to_unsigned v) = to_int v.
Proof.
  unfold to_int, to_unsigned. now rewrite Z.mod_mod by lia.
Qed.

Lemma to_int_range v : -2147483648 <= to_int v < 2147483648.
Proof.
  unfold to_int.
  assert (R : 0 <= v mod 4294967296 < 4294967296) by (apply Z.mod_pos_bound; lia).
  destruct (v mod 4294967296 <? 2147483648) eqn:E;
    [apply Z.ltb_lt in E | apply Z.ltb_ge in E]; lia.
Qed.

(** An [int] in range that is not zero is not index zero as an unsigned
    value either. *)
Lemma to_unsigned_zero v :
  -2147483648 <= v < 2147483648 -> to_unsigned v = 0 -> v = 0.
Proof.
  unfold to_unsigned. intros R H.
  Z.div_mod_to_equations. lia.
Qed.

Lemma load_int_head v rest : load_int (int_bytes v ++ rest) 0 = Some (to_int v).
Proof.
  unfold load_int, int_bytes. simpl skipn. cbv beta iota zeta.
  simpl app. cbv beta iota.
  f_equal. rewrite <- (to_int_to_unsigned v). f_equal.
  pose proof (bytes_value v) as B. cbv zeta in B. lia.
Qed.

Lemma load_int_shift b0 b1 b2 b3 rest i :
  load_int (b0 :: b1 :: b2 :: b3 :: rest) (S i) = load_int rest i.
Proof.
  unfold load_int. replace (4 * S i)%nat with (S (S (S (S (4 * i))))) by lia.
  reflexivity.
Qed.

Lemma overwrite_entry a0 a1 a2 a3 buf v vals :
  overwrite (a0 :: a1 :: a2 :: a3 :: buf) (flat_map int_bytes (v :: vals))
  = int_bytes v ++ overwrite buf (flat_map int_bytes vals).
Proof. reflexivity. Qed.

(** Slot [i] of an array whose beginning was overwritten with the entries
    [vals] reads as entry [i], as a 32-bit two's complement value. *)
Lemma load_overwrite_inside vals : forall buf i,
  (4 * List.length vals <= List.length buf)%nat ->
  (i < List.length vals)%nat ->
  load_int (overwrite buf (flat_map int_bytes vals)) i = Some (to_int (nth i vals 0)).
Proof.
  induction vals as [|v vals IH]; intros buf i Hb Hi; simpl in Hi; [lia|].
  destruct buf as [|a0 [|a1 [|a2 [|a3 buf]]]]; simpl in Hb; try lia.
  rewrite overwrite_entry.
  destruct i as [|i].
  - apply load_int_head.
  - unfold int_bytes at 1. cbv zeta. simpl app. rewrite load_int_shift.
    simpl nth. apply IH; lia.
Qed.

(** Slots past the entries written are left as they were. *)
Lemma load_overwrite_beyond vals : forall buf i,
  (4 * List.length vals <= List.length buf)%nat ->
  (List.length vals <= i)%nat ->
  load_int (overwrite buf (flat_map int_bytes vals)) i = load_int buf i.
Proof.
  induction vals as [|v vals IH]; intros buf i Hb Hi.
  - simpl. destruct buf; reflexivity.
  - simpl in Hb, Hi.
    destruct buf as [|a0 [|a1 [|a2 [|a3 buf]]]]; simpl in Hb; try lia.
    rewrite overwrite_entry.
    destruct i as [|i]; [lia|].
    unfold int_bytes at 1. cbv zeta. simpl app. rewrite !load_int_shift.
    apply IH; lia.
Qed.

(** The slots [lo .. lo + |l| - 1] read as the list [l] when each of them
    does. *)
Lemma slots_from_list buf l : forall lo,
  (forall j, (j < List.length l)%nat -> load_int buf (lo + j) = Some (nth j l 0)) ->
  slots_from buf lo (List.length l) = Some l.
Proof.
  induction l as [|x l IH]; intros lo H; [reflexivity|].
  simpl. rewrite <- (Nat.add_0_r lo) at 1.
  rewrite (H 0%nat) by (simpl; lia). simpl nth.
  rewrite IH; [reflexivity|].
  intros j Hj. replace (S lo + j)%nat with (lo + S j)%nat by lia.
  apply (H (S j)). simpl. lia.
Qed.

(** Two arrays that agree on the slots scanned give the same values. *)
Lemma slots_from_ext b1 b2 n : forall lo,
  (forall i, (lo <= i < lo + n)%nat -> load_int b1 i = load_int b2 i) ->
  slots_from b1 lo n = slots_from b2 lo n.
Proof.
  induction n as [|n IH]; intros lo H; [reflexivity|].
  simpl. rewrite (H lo) by lia. rewrite (IH (S lo)); [reflexivity|].
  intros i Hi. apply H. lia.
Qed.

(** Every value read from an array is an [int]. *)
Lemma load_int_range buf i v :
  load_int buf i = Some v -> -2147483648 <= v < 2147483648.
Proof.
  unfold load_int.
  destruct (skipn (4 * i) buf) as [|b0 [|b1 [|b2 [|b3 rest]]]]; try discriminate.
  intros H. injection H as <-. apply to_int_range.
Qed.

Lemma slots_from_range buf n : forall lo vs,
  slots_from buf lo n = Some vs ->
  Forall (fun v => -2147483648 <= v < 2147483648) vs.
Proof.
  induction n as [|n IH]; intros lo vs H; simpl in H.
  - injection H as <-. constructor.
  - destruct (load_int buf lo) as [v|] eqn:L; [|discriminate].
    destruct (slots_from buf (S lo) n) as [vs'|] eqn:S'; [|discriminate].
    injection H as <-. constructor.
    + now apply (load_int_range buf lo).
    + now apply (IH (S lo)).
Qed.

End MemRoundTrip.

(** ** The calls an operation makes *)

Section Traces.

Variable K : Type.
Variable kernel : K -> Syscall -> Reply * K.

Lemma resolve_all_trace vs : forall (w : World K),
  calls (snd (resolve_all kernel w vs)) = calls w ++ resolution_calls vs.
Proof.
  unfold resolution_calls.
  induction vs as [|v vs IH]; intros w; simpl.
  - now rewrite app_nil_r.
  - destruct (v =? 0); simpl; [apply IH|].
    destruct (wr_name _); simpl; rewrite IH, calls_after, <- app_assoc; reflexivity.
Qed.

Lemma resolution_calls_nonzero vs :
  Forall (fun v => -2147483648 <= v < 2147483648) vs ->
  ~ In (Sys_if_indextoname 0) (resolution_calls vs).
Proof.
  unfold resolution_calls. intros R H.
  apply in_map_iff in H. destruct H as [v [E I]].
  apply filter_In in I. destruct I as [I NZ].
  rewrite Forall_forall in R. specialize (R v I).
  injection E as E. apply MemRoundTrip.to_unsigned_zero in E; [|exact R].
  subst v. discriminate NZ.
Qed.

Lemma settled_trace (w : World K) c k fd :
  calls (released kernel (settled kernel w c k) fd)
  = calls w ++ repeat c (S k) ++ release_calls fd.
Proof. now rewrite calls_released, calls_settled, <- app_assoc. Qed.

Ltac mutator_trace :=
  rewrite calls_released;
  destruct (verdict _ _ _ _ =? 0);
  rewrite ?calls_logged, calls_settled; unfold opened;
  rewrite !calls_after, <- !app_assoc; reflexivity.

(** X1.  A mutating operation whose request is interrupted [k] times makes
    these calls and no others: the name lookup (for the two membership
    operations), one [socket], the same request [k + 1] times, and the
    [close] of the descriptor, last.  The descriptor is thus released on the
    successful and on the failing return alike. *)
Theorem mutating_operations_trace :
  (forall fuel k br_name (w : World K),
      let c := Sys_ioctl (sock_of kernel w) SIOCBRADDBR (ArgName (CStr.c_str br_name)) in
      interrupted_times kernel (opened kernel w) c k ->
      exists b w',
        createBridge kernel (S k + fuel) br_name w = Returns b w'
        /\ calls w' = calls w ++ Sys_socket :: repeat c (S k)
                               ++ release_calls (sock_of kernel w))
  /\ (forall fuel k br_name (w : World K),
      let c := Sys_ioctl (sock_of kernel w) SIOCBRDELBR (ArgName (CStr.c_str br_name)) in
      interrupted_times kernel (opened kernel w) c k ->
      exists b w',
        deleteBridge kernel (S k + fuel) br_name w = Returns b w'
        /\ calls w' = calls w ++ Sys_socket :: repeat c (S k)
                               ++ release_calls (sock_of kernel w))
  /\ (forall fuel k br_name if_name (w : World K),
      let n := Sys_if_nametoindex (CStr.c_str if_name) in
      let w0 := after kernel w n in
      let ifr := {| ifr_name := CStr.take 15 (CStr.c_str br_name);
                    ifr_ifindex := Mem.to_int (ret (reply kernel w n)) |} in
      let c := Sys_ioctl (sock_of kernel w0) SIOCBRADDIF (ArgIfreq ifr) in
      ifr_ifindex ifr <> 0 ->
      interrupted_times kernel (opened kernel w0) c k ->
      exists b w',
        addIfaceToBridge kernel (S k + fuel) br_name if_name w = Returns b w'
        /\ calls w' = calls w ++ n :: Sys_socket :: repeat c (S k)
                               ++ release_calls (sock_of kernel w0))
  /\ (forall fuel k br_name if_name (w : World K),
      let n := Sys_if_nametoindex (CStr.c_str if_name) in
      let w0 := after kernel w n in
      let ifr := {| ifr_name := CStr.take 15 (CStr.c_str br_name);
                    ifr_ifindex := Mem.to_int (ret (reply kernel w n)) |} in
      let c := Sys_ioctl (sock_of kernel w0) SIOCBRDELIF (ArgIfreq ifr) in
      ifr_ifindex ifr <> 0 ->
      interrupted_times kernel (opened kernel w0) c k ->
      exists b w',
        removeIfaceFromBridge kernel (S k + fuel) br_name if_name w = Returns b w'
        /\ calls w' = calls w ++ n :: Sys_socket :: repeat c (S k)
                               ++ release_calls (sock_of kernel w0)).
Proof.
  repeat match goal with |- _ /\ _ => split end.
  - intros fuel k br_name w c H. eexists. eexists. split.
    + now apply createBridge_run.
    + subst c. mutator_trace.
  - intros fuel k br_name w c H. eexists. eexists. split.
    + now apply deleteBridge_run.
    + subst c. mutator_trace.
  - intros fuel k br_name if_name w n w0 ifr c Hi H. eexists. eexists. split.
    + now apply addIfaceToBridge_run.
    + subst c ifr w0 n. mutator_trace.
  - intros fuel k br_name if_name w n w0 ifr c Hi H. eexists. eexists. split.
    + now apply removeIfaceFromBridge_run.
    + subst c ifr w0 n. mutator_trace.
Qed.

(** X4.  An enumeration that gets its descriptor and whose request succeeds
    makes these calls and no others: one [socket], the one request, one
    [if_indextoname] for each non-zero slot scanned, in slot order, and the
    [close].  It never asks the kernel for the name of index zero. *)
Theorem enumerations_trace :
  (forall stack bridges (w : World K),
      let c := get_bridges_call kernel w in
      let r := reply kernel (opened kernel w) c in
      0 <= sock_of kernel w ->
      ret r <= MAX_PORTS ->
      exists vs bridges' w',
        Mem.slots_from (ifindices_after stack r) 0 (Z.to_nat (ret r)) = Some vs
        /\ GetBridges kernel stack bridges w = Returns (true, bridges') w'
        /\ calls w' = calls w ++ Sys_socket :: c :: resolution_calls vs
                               ++ release_calls (sock_of kernel w)
        /\ ~ In (Sys_if_indextoname 0) (resolution_calls vs))
  /\ (forall stack name0 br_name interfaces (w : World K),
      let c := get_ports_call kernel w name0 br_name in
      let r := reply kernel (opened kernel w) c in
      0 <= sock_of kernel w ->
      0 <= ret r ->
      exists vs interfaces' w',
        Mem.slots_from (ifindices_after stack r) 0 (Z.to_nat MAX_PORTS) = Some vs
        /\ GetInterfacesInBridge kernel stack name0 br_name interfaces w
           = Returns (true, interfaces') w'
        /\ calls w' = calls w ++ Sys_socket :: c :: resolution_calls vs
                               ++ release_calls (sock_of kernel w)
        /\ ~ In (Sys_if_indextoname 0) (resolution_calls vs)).
Proof.
  split.
  - intros stack bridges w c r Hs Hn.
    destruct (GetBridges_run K kernel stack bridges w Hs Hn) as [vs [Hvs Run]].
    exists vs. eexists. eexists. split; [exact Hvs|]. split; [exact Run|]. split.
    + rewrite calls_released, resolve_all_trace. unfold opened.
      rewrite !calls_after, <- !app_assoc. reflexivity.
    + apply resolution_calls_nonzero.
      now apply (MemRoundTrip.slots_from_range _ _ _ _ Hvs).
  - intros stack name0 br_name interfaces w c r Hs Hr.
    destruct (GetInterfacesInBridge_run K kernel stack name0 br_name interfaces w Hs Hr)
      as [vs [Hvs Run]].
    exists vs. eexists. eexists. split; [exact Hvs|]. split; [exact Run|]. split.
    + rewrite calls_released, resolve_all_trace. unfold opened.
      rewrite !calls_after, <- !app_assoc. reflexivity.
    + apply resolution_calls_nonzero.
      now apply (MemRoundTrip.slots_from_range _ _ _ _ Hvs).
Qed.

(** A request that is interrupted at every attempt is retried without end:
    no amount of fuel lets the retry loop finish. *)
Lemma retry_forever c fuel : forall (w : World K),
  (forall j, interrupted kernel (reissued kernel w c j) c) ->
  TEMP_FAILURE_RETRY fuel (syscall kernel c) w = OutOfFuel.
Proof.
  induction fuel as [|fuel IH]; intros w H; [reflexivity|].
  rewrite retry_again by apply (H 0%nat).
  apply IH. intros j. apply (H (S j)).
Qed.

(** X3.  There is no bound on the retries: while the kernel keeps
    interrupting the request, none of the four mutating operations returns,
    whatever the number of attempts allowed. *)
Theorem mutating_operations_retry_without_bound :
  (forall fuel br_name (w : World K),
      let c := Sys_ioctl (sock_of kernel w) SIOCBRADDBR (ArgName (CStr.c_str br_name)) in
      (forall j, interrupted kernel (reissued kernel (opened kernel w) c j) c) ->
      createBridge kernel fuel br_name w = OutOfFuel)
  /\ (forall fuel br_name (w : World K),
      let c := Sys_ioctl (sock_of kernel w) SIOCBRDELBR (ArgName (CStr.c_str br_name)) in
      (forall j, interrupted kernel (reissued kernel (opened kernel w) c j) c) ->
      deleteBridge kernel fuel br_name w = OutOfFuel)
  /\ (forall fuel br_name if_name (w : World K),
      let n := Sys_if_nametoindex (CStr.c_str if_name) in
      let w0 := after kernel w n in
      let ifr := {| ifr_name := CStr.take 15 (CStr.c_str br_name);
                    ifr_ifindex := Mem.to_int (ret (reply kernel w n)) |} in
      let c := Sys_ioctl (sock_of kernel w0) SIOCBRADDIF (ArgIfreq ifr) in
      ifr_ifindex ifr <> 0 ->
      (forall j, interrupted kernel (reissued kernel (opened kernel w0) c j) c) ->
      addIfaceToBridge kernel fuel br_name if_name w = OutOfFuel)
  /\ (forall fuel br_name if_name (w : World K),
      let n := Sys_if_nametoindex (CStr.c_str if_name) in
      let w0 := after kernel w n in
      let ifr := {| ifr_name := CStr.take 15 (CStr.c_str br_name);
                    ifr_ifindex := Mem.to_int (ret (reply kernel w n)) |} in
      let c := Sys_ioctl (sock_of kernel w0) SIOCBRDELIF (ArgIfreq ifr) in
      ifr_ifindex ifr <> 0 ->
      (forall j, interrupted kernel (reissued kernel (opened kernel w0) c j) c) ->
      removeIfaceFromBridge kernel fuel br_name if_name w = OutOfFuel).
Proof.
  repeat match goal with |- _ /\ _ => split end.
  - intros fuel br_name w c H. unfold createBridge.
    unfold bind at 1, syscall at 1. unfold bind at 1.
    now rewrite (retry_forever _ _ _ H).
  - intros fuel br_name w c H. unfold deleteBridge.
    unfold bind at 1, syscall at 1. unfold bind at 1.
    now rewrite (retry_forever _ _ _ H).
  - intros fuel br_name if_name w n w0 ifr c Hi H. unfold addIfaceToBridge.
    unfold bind at 1, syscall at 1. cbn [ifr_ifindex ifr_name].
    fold n w0. simpl in Hi.
    destruct (Mem.to_int (ret (reply kernel w n)) =? 0) eqn:E;
      [apply Z.eqb_eq in E; contradiction|].
    change (CStr.strlcpy (ifr_name ifreq_zero) (CStr.c_str br_name) IFNAMSIZ)
      with (CStr.take 15 (CStr.c_str br_name)).
    unfold bind at 1, syscall at 1. unfold bind at 1.
    now rewrite (retry_forever _ _ _ H).
  - intros fuel br_name if_name w n w0 ifr c Hi H. unfold removeIfaceFromBridge.
    unfold bind at 1, syscall at 1. cbn [ifr_ifindex ifr_name].
    fold n w0. simpl in Hi.
    destruct (Mem.to_int (ret (reply kernel w n)) =? 0) eqn:E;
      [apply Z.eqb_eq in E; contradiction|].
    change (CStr.strlcpy (ifr_name ifreq_zero) (CStr.c_str br_name) IFNAMSIZ)
      with (CStr.take 15 (CStr.c_str br_name)).
    unfold bind at 1, syscall at 1. unfold bind at 1.
    now rewrite (retry_forever _ _ _ H).
Qed.

End Traces.

(** ** The error log, the caller's vector, and the bridge name *)

Section Frames.

Variable K : Type.
Variable kernel : K -> Syscall -> Reply * K.

Lemma logs_reissued c k : forall (w : World K),
  logs (reissued kernel w c k) = logs w.
Proof.
  induction k as [|k IH]; intros w; simpl; [reflexivity|]. now rewrite IH.
Qed.

Lemma logs_settled (w : World K) c k : logs (settled kernel w c k) = logs w.
Proof. unfold settled. simpl. apply logs_reissued. Qed.

Lemma logs_after_release (w : World K) fd : logs (released kernel w fd) = logs w.
Proof. unfold released. destruct (fd =? -1); reflexivity. Qed.

Lemma logs_resolve_all vs : forall (w : World K),
  logs (snd (resolve_all kernel w vs)) = logs w.
Proof.
  induction vs as [|v vs IH]; intros w; simpl; [reflexivity|].
  destruct (v =? 0); [apply IH|].
  destruct (wr_name _); simpl; now rewrite IH.
Qed.

Lemma logs_logged (w : World K) line : logs (logged w line) = logs w ++ [line].
Proof. reflexivity. Qed.

Lemma mutator_logs (w : World K) c k fd line (b : bool) :
  logs (released kernel
          (if b then settled kernel (opened kernel w) c k
           else logged (settled kernel (opened kernel w) c k) line) fd)
  = logs w ++ (if b then [] else [line]).
Proof.
  rewrite logs_after_release.
  destruct b; [|rewrite logs_logged]; rewrite logs_settled;
    [now rewrite app_nil_r | reflexivity].
Qed.

Ltac mutator_log :=
  match goal with
  | |- exists b w' lines, Returns (?v =? 0) ?W = Returns b w' /\ _ =>
      eexists; eexists; eexists; split;
      [ reflexivity
      | split;
        [ etransitivity; [ apply mutator_logs | reflexivity ]
        | destruct (v =? 0); reflexivity ] ]
  end.

(** X2.  Every operation that returns writes exactly one line to the error
    log when it returns [false], and none when it returns [true]. *)
Theorem one_log_line_per_failure :
  (forall fuel k br_name (w : World K),
      let c := Sys_ioctl (sock_of kernel w) SIOCBRADDBR (ArgName (CStr.c_str br_name)) in
      interrupted_times kernel (opened kernel w) c k ->
      exists b w' lines,
        createBridge kernel (S k + fuel) br_name w = Returns b w'
        /\ logs w' = logs w ++ lines
        /\ List.length lines = if b then 0%nat else 1%nat)
  /\ (forall fuel k br_name (w : World K),
      let c := Sys_ioctl (sock_of kernel w) SIOCBRDELBR (ArgName (CStr.c_str br_name)) in
      interrupted_times kernel (opened kernel w) c k ->
      exists b w' lines,
        deleteBridge kernel (S k + fuel) br_name w = Returns b w'
        /\ logs w' = logs w ++ lines
        /\ List.length lines = if b then 0%nat else 1%nat)
  /\ (forall fuel k br_name if_name (w : World K),
      let n := Sys_if_nametoindex (CStr.c_str if_name) in
      let w0 := after kernel w n in
      let ifr := {| ifr_name := CStr.take 15 (CStr.c_str br_name);
                    ifr_ifindex := Mem.to_int (ret (reply kernel w n)) |} in
      let c := Sys_ioctl (sock_of kernel w0) SIOCBRADDIF (ArgIfreq ifr) in
      (ifr_ifindex ifr <> 0 -> interrupted_times kernel (opened kernel w0) c k) ->
      exists b w' lines,
        addIfaceToBridge kernel (S k + fuel) br_name if_name w = Returns b w'
        /\ logs w' = logs w ++ lines
        /\ List.length lines = if b then 0%nat else 1%nat)
  /\ (forall fuel k br_name if_name (w : World K),
      let n := Sys_if_nametoindex (CStr.c_str if_name) in
      let w0 := after kernel w n in
      let ifr := {| ifr_name := CStr.take 15 (CStr.c_str br_name);
                    ifr_ifindex := Mem.to_int (ret (reply kernel w n)) |} in
      let c := Sys_ioctl (sock_of kernel w0) SIOCBRDELIF (ArgIfreq ifr) in
      (ifr_ifindex ifr <> 0 -> interrupted_times kernel (opened kernel w0) c k) ->
      exists b w' lines,
        removeIfaceFromBridge kernel (S k + fuel) br_name if_name w = Returns b w'
        /\ logs w' = logs w ++ lines
        /\ List.length lines = if b then 0%nat else 1%nat)
  /\ (forall stack bridges (w : World K),
      let c := get_bridges_call kernel w in
      (0 <= sock_of kernel w -> ret (reply kernel (opened kernel w) c) <= MAX_PORTS) ->
      exists b bridges' w' lines,
        GetBridges kernel stack bridges w = Returns (b, bridges') w'
        /\ logs w' = logs w ++ lines
        /\ List.length lines = if b then 0%nat else 1%nat)
  /\ (forall stack name0 br_name interfaces (w : World K),
      exists b interfaces' w' lines,
        GetInterfacesInBridge kernel stack name0 br_name interfaces w
        = Returns (b, interfaces') w'
        /\ logs w' = logs w ++ lines
        /\ List.length lines = if b then 0%nat else 1%nat).
Proof.
  repeat match goal with |- _ /\ _ => split end.
  - intros fuel k br_name w c H.
    rewrite (createBridge_run K kernel fuel k br_name w H). fold c.
    mutator_log.
  - intros fuel k br_name w c H.
    rewrite (deleteBridge_run K kernel fuel k br_name w H). fold c.
    mutator_log.
  - intros fuel k br_name if_name w n w0 ifr c H.
    destruct (Z.eq_dec (ifr_ifindex ifr) 0) as [Z0|NZ].
    + rewrite (addIfaceToBridge_unresolved K kernel _ br_name if_name w Z0).
      eexists; eexists; eexists. split; [reflexivity|]. split; reflexivity.
    + rewrite (addIfaceToBridge_run K kernel fuel k br_name if_name w NZ (H NZ)).
      fold n w0 ifr c.
      mutator_log.
  - intros fuel k br_name if_name w n w0 ifr c H.
    destruct (Z.eq_dec (ifr_ifindex ifr) 0) as [Z0|NZ].
    + rewrite (removeIfaceFromBridge_unresolved K kernel _ br_name if_name w Z0).
      eexists; eexists; eexists. split; [reflexivity|]. split; reflexivity.
    + rewrite (removeIfaceFromBridge_run K kernel fuel k br_name if_name w NZ (H NZ)).
      fold n w0 ifr c.
      mutator_log.
  - intros stack bridges w c H.
    destruct (Z_lt_le_dec (sock_of kernel w) 0) as [Hs|Hs].
    + rewrite (GetBridges_no_socket K kernel stack bridges w Hs).
      exists false. eexists. eexists. eexists. split; [reflexivity|].
      rewrite logs_after_release. split; reflexivity.
    + destruct (GetBridges_run K kernel stack bridges w Hs (H Hs)) as [vs [_ Run]].
      rewrite Run. exists true. eexists. eexists. exists [].
      split; [reflexivity|].
      rewrite logs_after_release, logs_resolve_all, app_nil_r. split; reflexivity.
  - intros stack name0 br_name interfaces w.
    destruct (Z_lt_le_dec (sock_of kernel w) 0) as [Hs|Hs].
    + rewrite (GetInterfacesInBridge_no_socket K kernel stack name0 br_name interfaces w Hs).
      exists false. eexists. eexists. eexists. split; [reflexivity|].
      rewrite logs_after_release. split; reflexivity.
    + destruct (Z_lt_le_dec
                  (ret (reply kernel (opened kernel w)
                          (get_ports_call kernel w name0 br_name))) 0) as [Hr|Hr].
      * rewrite (GetInterfacesInBridge_failed K kernel stack name0 br_name interfaces w Hs Hr).
        exists false. eexists. eexists. eexists. split; [reflexivity|].
        rewrite logs_after_release. split; reflexivity.
      * destruct (GetInterfacesInBridge_run K kernel stack name0 br_name interfaces w Hs Hr)
          as [vs [_ Run]].
        rewrite Run. exists true. eexists. eexists. exists [].
        split; [reflexivity|].
        rewrite logs_after_release, logs_resolve_all, app_nil_r. split; reflexivity.
Qed.

End Frames.

(** ** What the result does and does not depend on *)

Section Independence.

Variable K : Type.
Variable kernel : K -> Syscall -> Reply * K.

(** X5.  [GetBridges] leaves its array exactly when it has a descriptor and
    the kernel reports more than [MAX_PORTS] entries: the count returned by
    the request is used as the loop bound without being compared with the
    capacity.  [GetInterfacesInBridge], whose loop bound is [MAX_PORTS]
    itself, never leaves its array. *)
Theorem enumerations_array_bounds :
  (forall stack bridges (w : World K),
      GetBridges kernel stack bridges w = Undefined
      <-> (0 <= sock_of kernel w
           /\ MAX_PORTS < ret (reply kernel (opened kernel w) (get_bridges_call kernel w))))
  /\ (forall stack name0 br_name interfaces (w : World K),
      GetInterfacesInBridge kernel stack name0 br_name interfaces w <> Undefined).
Proof.
  split.
  - intros stack bridges w. split.
    + intros U.
      destruct (Z_lt_le_dec (sock_of kernel w) 0) as [Hs|Hs].
      { rewrite (GetBridges_no_socket K kernel stack bridges w Hs) in U. discriminate U. }
      split; [exact Hs|].
      destruct (Z_lt_le_dec MAX_PORTS
                  (ret (reply kernel (opened kernel w) (get_bridges_call kernel w))))
        as [Hn|Hn]; [exact Hn|].
      destruct (GetBridges_run K kernel stack bridges w Hs Hn) as [vs [_ Run]].
      rewrite Run in U. discriminate U.
    + intros [Hs Hn]. now apply GetBridges_overrun.
  - intros stack name0 br_name interfaces w.
    destruct (Z_lt_le_dec (sock_of kernel w) 0) as [Hs|Hs].
    { rewrite (GetInterfacesInBridge_no_socket K kernel stack name0 br_name interfaces w Hs).
      discriminate. }
    destruct (Z_lt_le_dec
                (ret (reply kernel (opened kernel w)
                        (get_ports_call kernel w name0 br_name))) 0) as [Hr|Hr].
    + rewrite (GetInterfacesInBridge_failed K kernel stack name0 br_name interfaces w Hs Hr).
      discriminate.
    + destruct (GetInterfacesInBridge_run K kernel stack name0 br_name interfaces w Hs Hr)
        as [vs [_ Run]].
      rewrite Run. discriminate.
Qed.

Lemma strlcpy_name_field dst src :
  CStr.strlcpy dst src IFNAMSIZ = CStr.take 15 src.
Proof. reflexivity. Qed.

(** X6.  The three operations that copy the bridge name into the name field
    see nothing of it but its first 15 characters: two names that agree on
    those give the same result, the same calls and the same log. *)
Theorem bridge_name_matters_up_to_15_characters :
  forall br_name br_name',
    CStr.take 15 (CStr.c_str br_name) = CStr.take 15 (CStr.c_str br_name') ->
    (forall fuel if_name (w : World K),
        addIfaceToBridge kernel fuel br_name if_name w
        = addIfaceToBridge kernel fuel br_name' if_name w)
    /\ (forall fuel if_name (w : World K),
        removeIfaceFromBridge kernel fuel br_name if_name w
        = removeIfaceFromBridge kernel fuel br_name' if_name w)
    /\ (forall stack name0 interfaces (w : World K),
        GetInterfacesInBridge kernel stack name0 br_name interfaces w
        = GetInterfacesInBridge kernel stack name0 br_name' interfaces w).
Proof.
  intros br_name br_name' H. split; [|split].
  - intros fuel if_name w. unfold addIfaceToBridge.
    unfold bind, syscall. cbv beta iota. cbn [ifr_ifindex ifr_name].
    destruct (Mem.to_int _ =? 0); [reflexivity|].
    rewrite !strlcpy_name_field, H. reflexivity.
  - intros fuel if_name w. unfold removeIfaceFromBridge.
    unfold bind, syscall. cbv beta iota. cbn [ifr_ifindex ifr_name].
    destruct (Mem.to_int _ =? 0); [reflexivity|].
    rewrite !strlcpy_name_field, H. reflexivity.
  - intros stack name0 interfaces w. unfold GetInterfacesInBridge.
    unfold bind, syscall. cbv beta iota.
    destruct (ret _ <? 0); [reflexivity|].
    rewrite !strlcpy_name_field, H. reflexivity.
Qed.

(** The scanning loop started on a vector does what it does on the empty
    vector, in front of which the vector is kept. *)
Lemma scan_indices_prefix buf n : forall i out (w : World K),
  scan_indices kernel n i buf out w
  = match scan_indices kernel n i buf [] w with
    | Returns names w' => Returns (out ++ names) w'
    | OutOfFuel => OutOfFuel
    | Undefined => Undefined
    end.
Proof.
  induction n as [|n IH]; intros i out w; simpl.
  - unfold pure. now rewrite app_nil_r.
  - destruct (Mem.load_int buf i) as [v|]; [|reflexivity].
    destruct (v =? 0); [apply IH|].
    unfold bind, syscall.
    destruct (wr_name _) as [name|]; [|apply IH].
    rewrite (IH (S i) (out ++ [name])), (IH (S i) ([] ++ [name])).
    destruct (scan_indices kernel n (S i) buf [] _); try reflexivity.
    now rewrite <- app_assoc.
Qed.

(** X7.  What an enumeration appends, what it returns and what it does to
    the world do not depend on what the caller's vector held: a run on a
    vector is the run on the empty vector with the vector put in front. *)
Theorem enumerations_ignore_vector_contents :
  (forall stack bridges (w : World K),
      GetBridges kernel stack bridges w
      = match GetBridges kernel stack [] w with
        | Returns (b, names) w' => Returns (b, bridges ++ names) w'
        | OutOfFuel => OutOfFuel
        | Undefined => Undefined
        end)
  /\ (forall stack name0 br_name interfaces (w : World K),
      GetInterfacesInBridge kernel stack name0 br_name interfaces w
      = match GetInterfacesInBridge kernel stack name0 br_name [] w with
        | Returns (b, names) w' => Returns (b, interfaces ++ names) w'
        | OutOfFuel => OutOfFuel
        | Undefined => Undefined
        end).
Proof.
  split.
  - intros stack bridges w. unfold GetBridges.
    unfold bind, syscall, log_error_errno, pure. cbv beta iota.
    destruct (ret _ <? 0).
    + rewrite !release_run. now rewrite app_nil_r.
    + rewrite (scan_indices_prefix _ _ _ bridges).
      destruct (scan_indices kernel _ _ _ [] _) as [names w'| |]; try reflexivity.
      rewrite !release_run. reflexivity.
  - intros stack name0 br_name interfaces w. unfold GetInterfacesInBridge.
    unfold bind, syscall, log_error_errno, log_error, pure. cbv beta iota.
    destruct (ret _ <? 0).
    + rewrite !release_run. now rewrite app_nil_r.
    + destruct (ret _ <? 0).
      * rewrite !release_run. now rewrite app_nil_r.
      * rewrite (scan_indices_prefix _ _ _ interfaces).
        destruct (scan_indices kernel _ _ _ [] _) as [names w'| |]; try reflexivity.
        rewrite !release_run. reflexivity.
Qed.

End Independence.

(** ** From the entries the kernel copies to the names returned *)

Section KernelEntries.

Variable K : Type.
Variable kernel : K -> Syscall -> Reply * K.

Lemma copy_to_user_unfold buf cap indices :
  Mem.copy_to_user buf cap indices
  = Mem.overwrite buf (flat_map Mem.int_bytes (firstn (Z.to_nat cap) indices)).
Proof. reflexivity. Qed.

Lemma copied_room stack (r : Reply) :
  (4 * List.length (firstn 1024 (wr_indices r))
   <= List.length (ifindices_init stack))%nat.
Proof.
  rewrite MemFacts.ifindices_init_length.
  pose proof (firstn_le_length 1024 (wr_indices r)). lia.
Qed.

(** A slot the kernel wrote reads as the entry it copied there. *)
Lemma slot_written stack (r : Reply) i :
  (i < 1024)%nat -> (i < List.length (wr_indices r))%nat ->
  Mem.load_int (ifindices_after stack r) i
  = Some (Mem.to_int (nth i (wr_indices r) 0)).
Proof.
  intros H1 H2.
  rewrite ifindices_after_unfold, copy_to_user_unfold.
  change (Z.to_nat MAX_PORTS) with 1024%nat.
  rewrite MemRoundTrip.load_overwrite_inside.
  - rewrite nth_firstn. apply Nat.ltb_lt in H1. now rewrite H1.
  - apply copied_room.
  - rewrite length_firstn. lia.
Qed.

(** A slot the kernel did not write reads as the program initialised it. *)
Lemma slot_unwritten stack (r : Reply) i :
  (List.length (wr_indices r) <= i)%nat ->
  Mem.load_int (ifindices_after stack r) i = Mem.load_int (ifindices_init stack) i.
Proof.
  intros H.
  rewrite ifindices_after_unfold, copy_to_user_unfold.
  change (Z.to_nat MAX_PORTS) with 1024%nat.
  apply MemRoundTrip.load_overwrite_beyond.
  - apply copied_room.
  - rewrite length_firstn. lia.
Qed.

(** The first [n] slots read as the first [n] entries copied, when the
    kernel copied at least that many and [n] is within the capacity. *)
Lemma slots_are_entries stack (r : Reply) n :
  (n <= 1024)%nat -> (n <= List.length (wr_indices r))%nat ->
  Mem.slots_from (ifindices_after stack r) 0 n
  = Some (map Mem.to_int (firstn n (wr_indices r))).
Proof.
  intros H1 H2.
  assert (L : List.length (map Mem.to_int (firstn n (wr_indices r))) = n).
  { rewrite length_map, length_firstn. lia. }
  rewrite <- L at 1. apply MemRoundTrip.slots_from_list.
  intros j Hj. rewrite L in Hj. simpl.
  rewrite slot_written by lia. f_equal.
  change 0 with (Mem.to_int 0) at 2. rewrite map_nth, nth_firstn.
  apply Nat.ltb_lt in Hj. now rewrite Hj.
Qed.

(** X8.  When the kernel copies at least as many entries as the count it
    returns, [GetBridges] returns the names of exactly those entries (as
    32-bit values, zero entries passed over, in order), and nothing of what
    the stack held.  The same holds for [GetInterfacesInBridge] when the
    kernel fills the whole array of [MAX_PORTS] entries. *)
Theorem enumerations_return_the_entries_copied :
  (forall stack bridges (w : World K),
      let c := get_bridges_call kernel w in
      let r := reply kernel (opened kernel w) c in
      let w2 := after kernel (opened kernel w) c in
      let entries := map Mem.to_int (firstn (Z.to_nat (ret r)) (wr_indices r)) in
      0 <= sock_of kernel w ->
      ret r <= MAX_PORTS ->
      ret r <= Z.of_nat (List.length (wr_indices r)) ->
      GetBridges kernel stack bridges w
      = Returns (true, bridges ++ fst (resolve_all kernel w2 entries))
          (released kernel (snd (resolve_all kernel w2 entries)) (sock_of kernel w)))
  /\ (forall stack name0 br_name interfaces (w : World K),
      let c := get_ports_call kernel w name0 br_name in
      let r := reply kernel (opened kernel w) c in
      let w2 := after kernel (opened kernel w) c in
      let entries := map Mem.to_int (firstn 1024 (wr_indices r)) in
      0 <= sock_of kernel w ->
      0 <= ret r ->
      MAX_PORTS <= Z.of_nat (List.length (wr_indices r)) ->
      GetInterfacesInBridge kernel stack name0 br_name interfaces w
      = Returns (true, interfaces ++ fst (resolve_all kernel w2 entries))
          (released kernel (snd (resolve_all kernel w2 entries)) (sock_of kernel w))).
Proof.
  split.
  - intros stack bridges w c r w2 entries Hs Hn Hl.
    destruct (GetBridges_run K kernel stack bridges w Hs Hn) as [vs [Hvs Run]].
    fold c r in Hvs. fold c w2 in Run.
    rewrite slots_are_entries in Hvs by (unfold MAX_PORTS in Hn; lia).
    injection Hvs as <-. exact Run.
  - intros stack name0 br_name interfaces w c r w2 entries Hs Hr Hl.
    destruct (GetInterfacesInBridge_run K kernel stack name0 br_name interfaces w Hs Hr)
      as [vs [Hvs Run]].
    fold c r in Hvs. fold c w2 in Run.
    change (Z.to_nat MAX_PORTS) with 1024%nat in Hvs.
    rewrite slots_are_entries in Hvs by (unfold MAX_PORTS in Hl; lia).
    injection Hvs as <-. exact Run.
Qed.

(** X9.  Up to 256 bridges, the part of the array that [memset] does clear
    is all that [GetBridges] reads: when the count returned is at most 256,
    or at most the number of entries copied, the run is the same whatever
    the stack held. *)
Theorem GetBridges_ignores_stack_contents :
  forall stack stack' bridges (w : World K),
    let r := reply kernel (opened kernel w) (get_bridges_call kernel w) in
    (ret r <= 256 \/ ret r <= Z.of_nat (List.length (wr_indices r))) ->
    GetBridges kernel stack bridges w = GetBridges kernel stack' bridges w.
Proof.
  intros stack stack' bridges w r H.
  destruct (Z_lt_le_dec (sock_of kernel w) 0) as [Hs|Hs].
  { now rewrite !(GetBridges_no_socket K kernel _ bridges w Hs). }
  destruct (Z_lt_le_dec MAX_PORTS (ret r)) as [Hn|Hn].
  { now rewrite !(GetBridges_overrun K kernel _ bridges w Hs Hn). }
  destruct (GetBridges_run K kernel stack bridges w Hs Hn) as [vs [Hvs Run]].
  destruct (GetBridges_run K kernel stack' bridges w Hs Hn) as [vs' [Hvs' Run']].
  fold r in Hvs, Hvs'.
  assert (E : Mem.slots_from (ifindices_after stack r) 0 (Z.to_nat (ret r))
              = Mem.slots_from (ifindices_after stack' r) 0 (Z.to_nat (ret r))).
  { apply MemRoundTrip.slots_from_ext. intros i Hi.
    destruct (Nat.lt_ge_cases i (List.length (wr_indices r))) as [In|Out].
    - unfold MAX_PORTS in Hn. rewrite !slot_written by lia. reflexivity.
    - rewrite !slot_unwritten by exact Out.
      rewrite !ifindices_init_cleared by lia. reflexivity. }
  rewrite Hvs, Hvs' in E. injection E as <-.
  now rewrite Run, Run'.
Qed.

End KernelEntries.

(** ** Concrete runs for the further properties *)

Section FurtherRuns.

Local Open Scope string_scope.
Local Open Scope list_scope.

Ltac run := vm_compute; first [reflexivity | discriminate | lia].

Ltac not_interrupted := unfold interrupted; vm_compute; lia.

Ltac interrupted_once :=
  split;
  [ intros j Hj; assert (j = 0)%nat as -> by lia; split; vm_compute; reflexivity
  | not_interrupted ].

Ltac not_interrupted_at_all :=
  split; [ intros j Hj; lia | not_interrupted ].

(** X1 with one interruption, with none, and with a refusal. *)
Lemma mutating_operations_trace_witness :
  (exists b w',
      createBridge Sim.step 2 "br0" (Sim.boot Sim.signalled) = Returns b w'
      /\ calls w' = [Sys_socket;
                     Sys_ioctl 3 SIOCBRADDBR (ArgName "br0");
                     Sys_ioctl 3 SIOCBRADDBR (ArgName "br0");
                     Sys_close 3])
  /\ (exists b w',
      deleteBridge Sim.step 1 "br0" (Sim.boot Sim.machine) = Returns b w'
      /\ calls w' = [Sys_socket; Sys_ioctl 3 SIOCBRDELBR (ArgName "br0"); Sys_close 3])
  /\ (exists b w',
      addIfaceToBridge Sim.step 2 "br0" "eth0" (Sim.boot Sim.signalled) = Returns b w'
      /\ calls w' = [Sys_if_nametoindex "eth0"; Sys_socket;
                     Sys_ioctl 3 SIOCBRADDIF
                       (ArgIfreq {| ifr_name := "br0"; ifr_ifindex := 2 |});
                     Sys_ioctl 3 SIOCBRADDIF
                       (ArgIfreq {| ifr_name := "br0"; ifr_ifindex := 2 |});
                     Sys_close 3])
  /\ (exists b w',
      removeIfaceFromBridge Sim.step 1 "br0" "eth0" (Sim.boot Sim.refusing)
      = Returns b w'
      /\ calls w' = [Sys_if_nametoindex "eth0"; Sys_socket;
                     Sys_ioctl 3 SIOCBRDELIF
                       (ArgIfreq {| ifr_name := "br0"; ifr_ifindex := 2 |});
                     Sys_close 3]).
Proof.
  destruct (mutating_operations_trace Sim.state Sim.step) as (HC & HD & HA & HR).
  repeat match goal with |- _ /\ _ => split end.
  - apply (HC 0%nat 1%nat "br0" (Sim.boot Sim.signalled)). interrupted_once.
  - apply (HD 0%nat 0%nat "br0" (Sim.boot Sim.machine)). not_interrupted_at_all.
  - apply (HA 0%nat 1%nat "br0" "eth0" (Sim.boot Sim.signalled));
      [run | interrupted_once].
  - apply (HR 0%nat 0%nat "br0" "eth0" (Sim.boot Sim.refusing));
      [run | not_interrupted_at_all].
Defined.

(** X2 on a success after a retry, a refusal, an unknown interface, a plain
    success, and an enumeration without a descriptor. *)
Lemma one_log_line_per_failure_witness :
  (exists b w' lines,
      createBridge Sim.step 2 "br0" (Sim.boot Sim.signalled) = Returns b w'
      /\ logs w' = lines /\ List.length lines = if b then 0%nat else 1%nat)
  /\ (exists b w' lines,
      deleteBridge Sim.step 1 "br0" (Sim.boot Sim.refusing) = Returns b w'
      /\ logs w' = lines /\ List.length lines = if b then 0%nat else 1%nat)
  /\ (exists b w' lines,
      addIfaceToBridge Sim.step 1 "br0" "eth7" (Sim.boot Sim.machine) = Returns b w'
      /\ logs w' = lines /\ List.length lines = if b then 0%nat else 1%nat)
  /\ (exists b w' lines,
      removeIfaceFromBridge Sim.step 1 "br0" "eth0" (Sim.boot Sim.machine)
      = Returns b w'
      /\ logs w' = lines /\ List.length lines = if b then 0%nat else 1%nat)
  /\ (exists b bridges' w' lines,
      GetBridges Sim.step Sim.dirty_stack [] (Sim.boot Sim.exhausted)
      = Returns (b, bridges') w'
      /\ logs w' = lines /\ List.length lines = if b then 0%nat else 1%nat).
Proof.
  destruct (one_log_line_per_failure Sim.state Sim.step)
    as (HC & HD & HA & HR & HB & _).
  repeat match goal with |- _ /\ _ => split end.
  - apply (HC 0%nat 1%nat "br0" (Sim.boot Sim.signalled)). interrupted_once.
  - apply (HD 0%nat 0%nat "br0" (Sim.boot Sim.refusing)). not_interrupted_at_all.
  - apply (HA 0%nat 0%nat "br0" "eth7" (Sim.boot Sim.machine)).
    intros NZ. exfalso. apply NZ. vm_compute. reflexivity.
  - apply (HR 0%nat 0%nat "br0" "eth0" (Sim.boot Sim.machine)).
    intros _. not_interrupted_at_all.
  - apply (HB Sim.dirty_stack [] (Sim.boot Sim.exhausted)).
    intros H. exfalso. vm_compute in H. apply H. reflexivity.
Defined.

(** X3 under the storm of signals, with room for a thousand attempts. *)
Lemma mutating_operations_retry_without_bound_witness :
  createBridge Odd.storm 1000 "br0" Odd.boot = OutOfFuel
  /\ deleteBridge Odd.storm 1000 "br0" Odd.boot = OutOfFuel
  /\ addIfaceToBridge Odd.storm 1000 "br0" "eth0" Odd.boot = OutOfFuel
  /\ removeIfaceFromBridge Odd.storm 1000 "br0" "eth0" Odd.boot = OutOfFuel.
Proof.
  destruct (mutating_operations_retry_without_bound unit Odd.storm)
    as (HC & HD & HA & HR).
  repeat match goal with |- _ /\ _ => split end.
  - apply (HC 1000%nat "br0" Odd.boot). intros j. split; reflexivity.
  - apply (HD 1000%nat "br0" Odd.boot). intros j. split; reflexivity.
  - apply (HA 1000%nat "br0" "eth0" Odd.boot);
      [vm_compute; discriminate | intros j; split; reflexivity].
  - apply (HR 1000%nat "br0" "eth0" Odd.boot);
      [vm_compute; discriminate | intros j; split; reflexivity].
Defined.

(** X4 on the machine at rest, over a stack of [0xFF] bytes. *)
Lemma enumerations_trace_witness :
  (let w := Sim.boot Sim.machine in
   let c := get_bridges_call Sim.step w in
   let r := reply Sim.step (opened Sim.step w) c in
   exists vs bridges' w',
     Mem.slots_from (ifindices_after Sim.dirty_stack r) 0 (Z.to_nat (ret r)) = Some vs
     /\ GetBridges Sim.step Sim.dirty_stack [] w = Returns (true, bridges') w'
     /\ calls w' = Sys_socket :: c :: resolution_calls vs ++ [Sys_close 3]
     /\ ~ In (Sys_if_indextoname 0) (resolution_calls vs))
  /\ (let w := Sim.boot Sim.machine in
      let c := get_ports_call Sim.step w EmptyString "br0" in
      let r := reply Sim.step (opened Sim.step w) c in
      exists vs interfaces' w',
        Mem.slots_from (ifindices_after Sim.dirty_stack r) 0 (Z.to_nat MAX_PORTS)
        = Some vs
        /\ GetInterfacesInBridge Sim.step Sim.dirty_stack EmptyString "br0" [] w
           = Returns (true, interfaces') w'
        /\ calls w' = Sys_socket :: c :: resolution_calls vs ++ [Sys_close 3]
        /\ ~ In (Sys_if_indextoname 0) (resolution_calls vs)).
Proof.
  destruct (enumerations_trace Sim.state Sim.step) as (HB & HI).
  split.
  - apply (HB Sim.dirty_stack [] (Sim.boot Sim.machine)); run.
  - apply (HI Sim.dirty_stack EmptyString "br0" [] (Sim.boot Sim.machine)); run.
Defined.

(** X5 on the kernel that reports 1025 bridges. *)
Lemma enumerations_array_bounds_witness :
  GetBridges Odd.overcounting Sim.dirty_stack [] Odd.boot = Undefined.
Proof.
  destruct (enumerations_array_bounds unit Odd.overcounting) as (HB & _).
  apply (HB Sim.dirty_stack [] Odd.boot). split; run.
Defined.

(** X6 for two names of 20 and 18 characters with the same first 15. *)
Lemma bridge_name_matters_up_to_15_characters_witness :
  addIfaceToBridge Sim.step 1 "br0123456789abcdefgh" "eth0" (Sim.boot Sim.machine)
  = addIfaceToBridge Sim.step 1 "br0123456789abcXYZ" "eth0" (Sim.boot Sim.machine)
  /\ removeIfaceFromBridge Sim.step 1 "br0123456789abcdefgh" "eth0"
       (Sim.boot Sim.refusing)
     = removeIfaceFromBridge Sim.step 1 "br0123456789abcXYZ" "eth0"
         (Sim.boot Sim.refusing)
  /\ GetInterfacesInBridge Sim.step Sim.dirty_stack EmptyString
       "br0123456789abcdefgh" [] (Sim.boot Sim.machine)
     = GetInterfacesInBridge Sim.step Sim.dirty_stack EmptyString
         "br0123456789abcXYZ" [] (Sim.boot Sim.machine).
Proof.
  destruct (bridge_name_matters_up_to_15_characters Sim.state Sim.step
              "br0123456789abcdefgh" "br0123456789abcXYZ")
    as (HA & HR & HI); [reflexivity|].
  split; [apply HA | split; [apply HR | apply HI]].
Defined.

(** X8 on the machine at rest: two bridges reported and copied, and a port
    list that fills the array. *)
Lemma enumerations_return_the_entries_copied_witness :
  (let w := Sim.boot Sim.machine in
   let c := get_bridges_call Sim.step w in
   let r := reply Sim.step (opened Sim.step w) c in
   let w2 := after Sim.step (opened Sim.step w) c in
   let entries := map Mem.to_int (firstn (Z.to_nat (ret r)) (wr_indices r)) in
   GetBridges Sim.step Sim.dirty_stack ["x"] w
   = Returns (true, ["x"] ++ fst (resolve_all Sim.step w2 entries))
       (released Sim.step (snd (resolve_all Sim.step w2 entries)) (sock_of Sim.step w)))
  /\ (let w := Sim.boot Sim.machine in
      let c := get_ports_call Sim.step w EmptyString "br0" in
      let r := reply Sim.step (opened Sim.step w) c in
      let w2 := after Sim.step (opened Sim.step w) c in
      let entries := map Mem.to_int (firstn 1024 (wr_indices r)) in
      GetInterfacesInBridge Sim.step Sim.dirty_stack EmptyString "br0" ["x"] w
      = Returns (true, ["x"] ++ fst (resolve_all Sim.step w2 entries))
          (released Sim.step (snd (resolve_all Sim.step w2 entries))
             (sock_of Sim.step w))).
Proof.
  destruct (enumerations_return_the_entries_copied Sim.state Sim.step) as (HB & HI).
  split.
  - apply (HB Sim.dirty_stack ["x"] (Sim.boot Sim.machine)); run.
  - apply (HI Sim.dirty_stack EmptyString "br0" ["x"] (Sim.boot Sim.machine)); run.
Defined.

(** X9 on the machine at rest: a stack of [0xFF] bytes and a stack of zero
    bytes give the same run. *)
Lemma GetBridges_ignores_stack_contents_witness :
  GetBridges Sim.step Sim.dirty_stack ["x"] (Sim.boot Sim.machine)
  = GetBridges Sim.step Sim.clean_stack ["x"] (Sim.boot Sim.machine).
Proof.
  apply (GetBridges_ignores_stack_contents Sim.state Sim.step
           Sim.dirty_stack Sim.clean_stack ["x"] (Sim.boot Sim.machine)).
  left. run.
Defined.

End FurtherRuns.
